(** * ViQAG: the evaluation glue of [trainqgag.py]

    A shallow embedding of the parts of [trainqgag.py] that the repository
    itself writes: the instruction formatting of dataset rows, the choice of
    the task in [prepare_data], the BLEU-1..4 aggregation loop [bleu], the
    result dictionary of [compute_metric] and the tail of [main].

    Conventions.
    - Python floats are read as real numbers ([R]): sums, the division by
      the length and the scaling by 100 are exact.
    - A raised exception is the left injection of [py A]. Code that also
      writes files or prints runs in [io], which threads the [World] and
      keeps it when an exception is raised.
    - Functions imported from other packages (the spaCy pipeline [nlp],
      NLTK's [sentence_bleu], pyvi's [ViTokenizer.tokenize], the dataset hub,
      the tokenizer, the model and the trainer) are parameters of the
      sections that use them. The calls of [logger.info] are left out. *)

From Stdlib Require Import Reals Lra Lia.
From stdpp Require Import gmap strings list fin_maps pretty.

(** * Part I: the program *)

(** ** Exceptions and the error monad *)

Inductive exception : Set :=
  | ZeroDivisionError
  | KeyError
  | IndexError
  | TypeError
  | FileNotFoundError
  | LibraryError (name : string).

(** [py A]: a Python computation that returns an [A] or raises. *)
Definition py (A : Type) : Type := (exception + A)%type.

Definition raise {A} (e : exception) : py A := inl e.

#[global] Instance py_ret : MRet py := λ A a, inr a.

#[global] Instance py_bind : MBind py := λ A B k m,
  match m with
  | inl e => inl e
  | inr a => k a
  end.

(** [for x in xs: s = body(s, x)], stopping at the first exception. *)
Fixpoint for_each `{MBind M, MRet M} {A S} (xs : list A)
    (body : S → A → M S) (s : S) : M S :=
  match xs with
  | [] => mret s
  | x :: xs' => s' ← body s x; for_each xs' body s'
  end.

(** [range(a, b)] *)
Definition range (a b : nat) : list nat := seq a (b - a).

(** [d[k]] on a dictionary *)
Definition getitem `{Countable K} {V} (d : gmap K V) (k : K) : py V :=
  match d !! k with
  | Some v => mret v
  | None => raise KeyError
  end.

(** [l[i]] on a list, for an index that is not negative *)
Definition index {A} (l : list A) (i : nat) : py A :=
  match l !! i with
  | Some a => mret a
  | None => raise IndexError
  end.

(** [sum(l)]: the additions run from the left, starting at 0. *)
Definition sum (l : list R) : R := foldl Rplus 0%R l.

(** [x / n] for an integer divisor [n]: Python raises on [n = 0]. *)
Definition truediv (x : R) (n : nat) : py R :=
  if decide (n = 0) then raise ZeroDivisionError else mret (x / INR n)%R.

(** ** Python values, files and the world *)

Inductive key : Set :=
  | KInt (i : Z)
  | KStr (s : string).

#[global] Instance key_eq_dec : EqDecision key.
Proof. solve_decision. Defined.

(** The values that are printed or written as JSON. A dictionary keeps its
    items in the order of insertion. *)
#[local] Unset Elimination Schemes.
Inductive value : Type :=
  | VInt (i : Z)
  | VFloat (x : R)
  | VStr (s : string)
  | VList (items : list value)
  | VDict (items : list (key * value)).
#[local] Set Elimination Schemes.

(** [d[k]] in an association list *)
Fixpoint assoc (items : list (key * value)) (k : key) : option value :=
  match items with
  | [] => None
  | (k', v) :: rest => if decide (k' = k) then Some v else assoc rest k
  end.

(** [obj[k]] on a value *)
Definition subscript (obj : value) (k : key) : py value :=
  match obj with
  | VDict items =>
      match assoc items k with
      | Some v => mret v
      | None => raise KeyError
      end
  | VList items =>
      match k with
      | KInt i => if decide (0 ≤ i)%Z then index items (Z.to_nat i)
                  else index (reverse items) (Z.to_nat (- i - 1))
      | KStr _ => raise TypeError
      end
  | _ => raise TypeError
  end.

(** A list of strings as a value, and back. *)
Definition strings_value (l : list string) : value := VList (VStr <$> l).

Definition as_string (v : value) : py string :=
  match v with
  | VStr s => mret s
  | _ => raise TypeError
  end.

Definition as_strings (v : value) : py (list string) :=
  match v with
  | VList items => mapM as_string items
  | _ => raise TypeError
  end.

(** A file written by [json.dump], with the arguments of [open] and of
    [json.dump] that shape it. *)
Record File : Type := {
  encoding : string;
  ensure_ascii : bool;
  indent : option nat;
  document : value
}.

(** The state outside the program: the files by path, what was printed,
    and for each path the exception with which [open(path, 'w')] fails in
    this state of the file system, if it fails ([FileNotFoundError] when
    the directory is missing). Paths are compared as strings. *)
Record World : Type := {
  files : gmap string File;
  stdout : list value;
  open_error : string → option exception
}.

(** [io A]: a computation on the world; the world survives an exception. *)
Definition io (A : Type) : Type := World → py A * World.

#[global] Instance io_ret : MRet io := λ A a w, (inr a, w).

#[global] Instance io_bind : MBind io := λ A B k m w,
  match m w with
  | (inl e, w') => (inl e, w')
  | (inr a, w') => k a w'
  end.

Definition lift {A} (m : py A) : io A := λ w, (m, w).

(** [print(v)] *)
Definition print (v : value) : io unit := λ w,
  (inr (), {| files := files w; stdout := stdout w ++ [v];
              open_error := open_error w |}).

(** The world in which the file at [path] has been written. *)
Definition write_file (path : string) (f : File) (w : World) : World :=
  {| files := <[path := f]> (files w); stdout := stdout w;
     open_error := open_error w |}.

(** [with open(path, 'w', encoding=enc) as f:
       json.dump(obj, f, ensure_ascii=ascii, indent=n)]: [open] raises
    when the file cannot be opened for writing, and then nothing is
    written. *)
Definition json_dump (path enc : string) (obj : value) (ascii : bool)
    (n : nat) : io unit := λ w,
  match open_error w path with
  | Some e => (raise e, w)
  | None =>
      let f := {| encoding := enc; ensure_ascii := ascii; indent := Some n;
                  document := obj |} in
      (inr (), write_file path f w)
  end.

(** [with open(path, 'r', encoding=enc) as f: json.load(f)] *)
Definition json_load (path enc : string) : io value := λ w,
  match files w !! path with
  | Some f => (inr (document f), w)
  | None => (raise FileNotFoundError, w)
  end.

(** [s.startswith('/')] and [s.endswith('/')] *)
Definition starts_with_slash (s : string) : bool :=
  match s with
  | String c _ => bool_decide (c = Ascii.ascii_of_nat 47)
  | EmptyString => false
  end.

Fixpoint ends_with_slash (s : string) : bool :=
  match s with
  | EmptyString => false
  | String c EmptyString => bool_decide (c = Ascii.ascii_of_nat 47)
  | String _ rest => ends_with_slash rest
  end.

(** [os.path.join(a, b)] of [posixpath]: an absolute [b] replaces [a]; no
    separator is added after an empty [a] or after a final slash. *)
Definition path_join (a b : string) : string :=
  if starts_with_slash b then b
  else if bool_decide (a = "") || ends_with_slash a then a +:+ b
  else a +:+ "/" +:+ b.

(** The line feed of ["\n"]. *)
Definition LF : string := String (Ascii.ascii_of_nat 10) "".

(** ** [Config] *)

Record Config : Type := {
  model_name : string;
  dataset_name : string;
  pretrained_model_name_or_path : string;
  checkpoint : string;
  task : string;
  tgt_len : nat;
  src_len : nat;
  seed : nat;
  num_proc : nat;
  per_device_train_batch_size : nat;
  per_device_eval_batch_size : nat;
  num_epochs : nat;
  lr : R;
  warmup_ratio : R;
  weight_decay : R
}.

(** [__post_init__] *)
Definition post_init (self : Config) : Config :=
  if decide (model_name self = "bartpho")
  then {| model_name := model_name self;
          dataset_name := dataset_name self;
          pretrained_model_name_or_path := "vinai/bartpho-word-base";
          checkpoint := checkpoint self;
          task := task self;
          tgt_len := tgt_len self;
          src_len := src_len self;
          seed := seed self;
          num_proc := num_proc self;
          per_device_train_batch_size := per_device_train_batch_size self;
          per_device_eval_batch_size := per_device_eval_batch_size self;
          num_epochs := num_epochs self;
          lr := lr self;
          warmup_ratio := warmup_ratio self;
          weight_decay := weight_decay self |}
  else self.

(** [Config(name)]: the one positional argument sets [model_name], every
    other field takes its default, then [__post_init__] runs. *)
Definition Config_new (name : string) : Config :=
  post_init
    {| model_name := name;
       dataset_name := "vinewsqa";
       pretrained_model_name_or_path := "VietAI/vit5-base";
       checkpoint := "/kaggle/working/cp";
       task := "ag";
       tgt_len := 256;
       src_len := 1024;
       seed := 42;
       num_proc := 16;
       per_device_train_batch_size := 4;
       per_device_eval_batch_size := 16;
       num_epochs := 10;
       lr := (1 / 10000)%R;
       warmup_ratio := (5 / 100)%R;
       weight_decay := (15 / 1000)%R |}.

(** ** Formatting a dataset example *)

Section Formatting.

(** [pyvi.ViTokenizer.tokenize] *)
Variable ViTokenizer_tokenize : string → string.

Definition formatting_func_qg (example : gmap string string)
  : py (gmap string string) :=
  instruction_qg ← getitem example "instruction_qg";
  context ← getitem example "context";
  answer ← getitem example "answer";
  let input_seq : string :=
    ("### Instruction: " +:+ LF)
    +:+ (instruction_qg +:+ LF +:+ LF)
    +:+ ("### Context: " +:+ LF)
    +:+ (ViTokenizer_tokenize context +:+ LF +:+ LF)
    +:+ ("### Answer: " +:+ LF)
    +:+ (ViTokenizer_tokenize answer +:+ LF +:+ LF)
    +:+ (LF +:+ LF +:+ "### Response: " +:+ LF) in
  question ← getitem example "question";
  let output_seq : string := ViTokenizer_tokenize question in
  mret (<["output_seq" := output_seq]> (<["input_seq" := input_seq]> ∅)).

Definition formatting_func_ag (example : gmap string string)
  : py (gmap string string) :=
  instruction_ag ← getitem example "instruction_ag";
  context ← getitem example "context";
  question ← getitem example "question";
  let input_seq : string :=
    ("### Instruction: " +:+ LF)
    +:+ (instruction_ag +:+ LF +:+ LF)
    +:+ ("### Context: " +:+ LF)
    +:+ (ViTokenizer_tokenize context +:+ LF +:+ LF)
    +:+ ("### Question: " +:+ LF)
    +:+ (ViTokenizer_tokenize question +:+ LF +:+ LF)
    +:+ (LF +:+ LF +:+ "### Response: " +:+ LF) in
  answer ← getitem example "answer";
  let output_seq : string := ViTokenizer_tokenize answer in
  mret (<["output_seq" := output_seq]> (<["input_seq" := input_seq]> ∅)).

End Formatting.

(** ** The BLEU aggregation loop *)

(** A spaCy token, as far as [bleu] reads it. *)
Record Token : Set := { text : string }.

(** The weights of the four n-gram orders. *)
Definition weights : Type := (R * R * R * R)%type.

Definition ws : list weights :=
  [ (1, 0, 0, 0); (0.5, 0.5, 0, 0); (0.33, 0.33, 0.33, 0);
    (0.25, 0.25, 0.25, 0.25) ]%R.

(** [{1: [], 2: [], 3: [], 4: []}] *)
Definition bleu_scores_init : gmap nat (list R) :=
  <[4 := []]> (<[3 := []]> (<[2 := []]> (<[1 := []]> ∅))).

(** ["BLEU{}".format(n)] *)
Definition bleu_key (n : nat) : string := "BLEU" +:+ pretty n.

(** The body of the second [for n in range(1, 5)]: the quotient is computed
    for [avg_bleu_score], which is not read, and again for the entry. *)
Definition average_order (bleu_scores : gmap nat (list R))
    (result : gmap string R) (n : nat) : py (gmap string R) :=
  l ← getitem bleu_scores n;
  q ← truediv (sum l) (length l);
  let avg_bleu_score := (q * 100)%R in
  l' ← getitem bleu_scores n;
  q' ← truediv (sum l') (length l');
  mret (<[bleu_key n := (q' * 100)%R]> result).

Section Bleu.

(** [nlp = spacy.load('vi_core_news_lg')], applied to a sentence: the
    tokens of the document. *)
Variable nlp : string → list Token.

(** [nltk.translate.bleu_score.sentence_bleu(references, hypothesis,
    weights=weights)] *)
Variable sentence_bleu : list (list string) → list string → weights → R.

(** The body of [for n in range(1, 5)] inside the loop over the pairs. *)
Definition score_order (sent1_doc sent2_doc : list Token)
    (bleu_scores : gmap nat (list R)) (n : nat)
  : py (gmap nat (list R)) :=
  weights ← index ws (n - 1);
  let sent1_tokens := text <$> sent1_doc in
  let sent2_tokens := text <$> sent2_doc in
  let bleu_score := sentence_bleu [sent1_tokens] sent2_tokens weights in
  l ← getitem bleu_scores n;
  mret (<[n := l ++ [bleu_score]]> bleu_scores).

(** The body of [for sent1, sent2 in zip(predict, goal)]. *)
Definition score_pair (bleu_scores : gmap nat (list R))
    (pair : string * string) : py (gmap nat (list R)) :=
  let '(sent1, sent2) := pair in
  let sent1_doc := nlp sent1 in
  let sent2_doc := nlp sent2 in
  for_each (range 1 5) (score_order sent1_doc sent2_doc) bleu_scores.

Definition bleu (predict goal : list string) : py (gmap string R) :=
  bleu_scores ← for_each (zip predict goal) score_pair bleu_scores_init;
  for_each (range 1 5) (average_order bleu_scores) ∅.

End Bleu.

(** ** The pipeline: data, training, generation, scores *)

(** The columns that [prepare_data] removes after formatting. *)
Definition raw_columns : list string :=
  ["instruction_qg"; "instruction_ag"; "context"; "question"; "answer"].

(** The dictionary of [bleu] as a value. *)
Definition dict_value (d : gmap string R) : value :=
  VDict ((λ kv, (KStr kv.1, VFloat kv.2)) <$> map_to_list d).

Section Pipeline.

(** The objects of the libraries. *)
Variables Dataset Tokenizer Model Batch Ids : Type.

Variable ViTokenizer_tokenize : string → string.
Variable nlp : string → list Token.
Variable sentence_bleu : list (list string) → list string → weights → R.

(** [os.makedirs(path, mode=0o777, exist_ok=True)] *)
Variable os_makedirs : string → io unit.
(** [AutoTokenizer.from_pretrained], [AutoModelForSeq2SeqLM.from_pretrained] *)
Variable AutoTokenizer_from_pretrained : string → io Tokenizer.
Variable AutoModelForSeq2SeqLM_from_pretrained : string → io Model.
(** [load_dataset(name, use_auth_token=True)]: the splits by name *)
Variable load_dataset : string → io (gmap string Dataset).
(** [dataset.map(function, num_proc=n)] *)
Variable Dataset_map :
  (gmap string string → py (gmap string string)) → nat → Dataset → io Dataset.
(** [dataset.remove_columns(names)] *)
Variable Dataset_remove_columns : list string → Dataset → io Dataset.
(** [dataset[column]] *)
Variable Dataset_column : Dataset → string → io value.
(** [dataset.map(preprocess_function, batched=True,
    remove_columns=['input_seq', 'output_seq'], num_proc=n)], where
    [preprocess_function] calls the tokenizer with [max_length=src_len]
    on [input_seq] and with [max_length=tgt_len] on [output_seq] *)
Variable Dataset_tokenize : Tokenizer → nat → nat → nat → Dataset → io Dataset.
(** [Seq2SeqTrainer(...).train()] with the arguments of
    [preprocess_and_train] *)
Variable trainer_train :
  Config → Model → Tokenizer → Dataset → Dataset → io unit.
(** [DataLoader(dataset, collate_fn=DataCollatorForSeq2Seq(tokenizer,
    model=model, return_tensors="pt"), batch_size=n)], as its batches *)
Variable DataLoader : Tokenizer → Model → Dataset → nat → io (list Batch).
(** [model.generate(input_ids=batch['input_ids'], max_length=n,
    attention_mask=batch['attention_mask'])] *)
Variable model_generate : Model → Batch → nat → io (list Ids).
(** [tokenizer.decode(out, clean_up_tokenization_spaces=False,
    skip_special_tokens=True)] *)
Variable tokenizer_decode : Tokenizer → Ids → string.
(** [np.where(batch['labels'] != -100, batch['labels'],
    tokenizer.pad_token_id)] *)
Variable batch_labels : Tokenizer → Batch → list Ids.
(** [load_metric('rouge').compute(predictions=p, references=r).items()],
    each score as its [mid.fmeasure] *)
Variable rouge_compute : value → value → io (list (string * R)).
(** [evaluate.load('meteor').compute(predictions=p, references=r)] *)
Variable meteor_compute : value → value → io value.
(** [evaluate.load('bertscore').compute(predictions=p, references=r,
    lang=l)] *)
Variable bertscore_compute : value → value → string → io value.
(** [np.array(v).mean()] *)
Variable np_array_mean : value → io R.

Definition prepare_data (conf : Config)
  : io (Dataset * Dataset * Dataset) :=
  data ← load_dataset ("shnl/" +:+ dataset_name conf);
  train_dataset ← lift (getitem data "train");
  dev_dataset ← lift (getitem data "validation");
  test_dataset ← lift (getitem data "test");
  if decide (task conf = "qg") then
    train_dataset ←
      Dataset_map (formatting_func_qg ViTokenizer_tokenize) (num_proc conf)
        train_dataset ≫= Dataset_remove_columns raw_columns;
    dev_dataset ←
      Dataset_map (formatting_func_qg ViTokenizer_tokenize) (num_proc conf)
        dev_dataset ≫= Dataset_remove_columns raw_columns;
    test_dataset ←
      Dataset_map (formatting_func_qg ViTokenizer_tokenize) (num_proc conf)
        test_dataset ≫= Dataset_remove_columns raw_columns;
    mret (train_dataset, dev_dataset, test_dataset)
  else
    train_dataset ←
      Dataset_map (formatting_func_ag ViTokenizer_tokenize) (num_proc conf)
        train_dataset ≫= Dataset_remove_columns raw_columns;
    dev_dataset ←
      Dataset_map (formatting_func_ag ViTokenizer_tokenize) (num_proc conf)
        dev_dataset ≫= Dataset_remove_columns raw_columns;
    test_dataset ←
      Dataset_map (formatting_func_ag ViTokenizer_tokenize) (num_proc conf)
        test_dataset ≫= Dataset_remove_columns raw_columns;
    mret (train_dataset, dev_dataset, test_dataset).

(** The body of [for _, batch in enumerate(tqdm(dataloader))]; the state
    is the pair of [predictions] and [references]. *)
Definition generate_batch (conf : Config) (model : Model)
    (tokenizer : Tokenizer) (acc : list string * list string)
    (batch : Batch) : io (list string * list string) :=
  let '(predictions, references) := acc in
  outputs ← model_generate model batch (tgt_len conf);
  let outputs := tokenizer_decode tokenizer <$> outputs in
  let labels := batch_labels tokenizer batch in
  let actuals := tokenizer_decode tokenizer <$> labels in
  mret (predictions ++ outputs, references ++ actuals).

Definition compute_metric (conf : Config) (model : Model)
    (tokenizer : Tokenizer) (tokenized_test : Dataset) : io value :=
  dataloader ←
    DataLoader tokenizer model tokenized_test
      (per_device_eval_batch_size conf);
  '(predictions, references) ←
    for_each dataloader (generate_batch conf model tokenizer) ([], []);
  _ ← json_dump (path_join (checkpoint conf) "results.json") "utf-8"
        (VDict [(KStr "predictions", strings_value predictions);
                (KStr "references", strings_value references)])
        false 2;
  mret (VDict [(KStr "predictions", strings_value predictions);
               (KStr "references", strings_value references)]).

Definition preprocess_and_train (conf : Config) (model : Model)
    (tokenizer : Tokenizer) (train_set val_set test_set : Dataset)
  : io value :=
  tokenized_train ←
    Dataset_tokenize tokenizer (src_len conf) (tgt_len conf)
      (num_proc conf) train_set;
  tokenized_val ←
    Dataset_tokenize tokenizer (src_len conf) (tgt_len conf)
      (num_proc conf) val_set;
  tokenized_test ←
    Dataset_tokenize tokenizer (src_len conf) (tgt_len conf)
      (num_proc conf) test_set;
  output_seq ← Dataset_column test_set "output_seq";
  _ ← json_dump (path_join (checkpoint conf) "origin_refs.json") "utf-8"
        (VDict [(KStr "references", output_seq)]) false 2;
  _ ← trainer_train conf model tokenizer tokenized_train tokenized_val;
  outputs ← compute_metric conf model tokenizer tokenized_test;
  mret outputs.

Definition main (name : string) : io unit :=
  let conf := Config_new name in
  _ ← os_makedirs (checkpoint conf);
  tokenizer ←
    AutoTokenizer_from_pretrained (pretrained_model_name_or_path conf);
  model ←
    AutoModelForSeq2SeqLM_from_pretrained
      (pretrained_model_name_or_path conf);
  '(train_dataset, dev_dataset, test_dataset) ← prepare_data conf;
  outputs ←
    preprocess_and_train conf model tokenizer train_dataset dev_dataset
      test_dataset;
  first ← lift (subscript outputs (KInt 0));
  _ ← print first;
  data ← json_load (checkpoint conf +:+ "/results.json") "utf-8";
  pred ← lift (subscript data (KStr "predictions"));
  ref ← lift (subscript data (KStr "references"));
  bleu_score ←
    lift (predict ← as_strings pred;
          goal ← as_strings ref;
          bleu nlp sentence_bleu predict goal);
  items ← rouge_compute pred ref;
  let rouge_results :=
    VList ((λ kv, VDict [(KStr kv.1, VFloat (kv.2 * 100))]) <$> items) in
  meteor_results ← meteor_compute pred ref;
  bert_results ← bertscore_compute pred ref "vi";
  f1 ← lift (subscript bert_results (KStr "f1"));
  bert_mean_f1 ← np_array_mean f1;
  let results :=
    VDict [(KStr "bleu_score", dict_value bleu_score);
           (KStr "rouge_results", rouge_results);
           (KStr "meteor_results", meteor_results);
           (KStr "bert_score_mean_f1", VFloat bert_mean_f1)] in
  _ ← print results;
  json_dump (checkpoint conf +:+ "/scores.json") "utf-8" results false 2.

(** [if __name__ == '__main__': main()] *)
Definition script : io unit := main "vit5".

End Pipeline.

(** ** Runs of [bleu] when the library calls are relations

    The same two loops, for a tokenizer and a scorer that are only known as
    relations between the arguments of a call and what it may return. *)

Section BleuRuns.

Variable nlp_returns : string → list Token → Prop.
Variable sentence_bleu_returns :
  list (list string) → list string → weights → R → Prop.

(** [for n in ns], inside the loop over the pairs *)
Inductive score_orders_run (sent1_doc sent2_doc : list Token)
  : list nat → gmap nat (list R) → gmap nat (list R) → Prop :=
  | score_orders_done bleu_scores :
      score_orders_run sent1_doc sent2_doc [] bleu_scores bleu_scores
  | score_orders_step n ns bleu_scores weights bleu_score l bleu_scores' :
      ws !! (n - 1) = Some weights →
      sentence_bleu_returns [text <$> sent1_doc] (text <$> sent2_doc)
        weights bleu_score →
      bleu_scores !! n = Some l →
      score_orders_run sent1_doc sent2_doc ns
        (<[n := l ++ [bleu_score]]> bleu_scores) bleu_scores' →
      score_orders_run sent1_doc sent2_doc (n :: ns) bleu_scores
        bleu_scores'.

(** [for sent1, sent2 in pairs] *)
Inductive score_pairs_run
  : list (string * string) → gmap nat (list R) → gmap nat (list R) → Prop :=
  | score_pairs_done bleu_scores :
      score_pairs_run [] bleu_scores bleu_scores
  | score_pairs_step sent1 sent2 pairs sent1_doc sent2_doc bleu_scores
      bleu_scores' bleu_scores'' :
      nlp_returns sent1 sent1_doc →
      nlp_returns sent2 sent2_doc →
      score_orders_run sent1_doc sent2_doc (range 1 5) bleu_scores
        bleu_scores' →
      score_pairs_run pairs bleu_scores' bleu_scores'' →
      score_pairs_run ((sent1, sent2) :: pairs) bleu_scores bleu_scores''.

(** A run of [bleu(predict, goal)] ends with [outcome]. *)
Definition bleu_run (predict goal : list string)
    (outcome : py (gmap string R)) : Prop :=
  ∃ bleu_scores,
    score_pairs_run (zip predict goal) bleu_scores_init bleu_scores
    ∧ outcome = for_each (range 1 5) (average_order bleu_scores) ∅.

End BleuRuns.

(** ** The imported scorer: [nltk.translate.bleu_score]

    [sentence_bleu] with its default arguments (no smoothing function, no
    automatic reweighting), for one hypothesis, as NLTK 3.8 computes it.
    The modified precisions are fractions of counts; the logarithm and the
    exponential are those of the real numbers. *)

Module Nltk.

(** [ngrams(sequence, n)], for [n >= 1]: the windows of [n] consecutive
    items. *)
Fixpoint ngrams (sequence : list string) (n : nat) : list (list string) :=
  match sequence with
  | [] => []
  | _ :: rest =>
      if decide (n ≤ length sequence)
      then take n sequence :: ngrams rest n
      else []
  end.

(** [Counter(items)[x]] *)
Definition count (x : list string) (items : list (list string)) : nat :=
  length (filter (λ y, y = x) items).

(** [max_counts[ngram]]: the largest count of [ngram] in one reference. *)
Definition max_count (references : list (list string)) (n : nat)
    (ngram : list string) : nat :=
  max_list_with (λ reference, count ngram (ngrams reference n)) references.

(** [modified_precision(references, hypothesis, n)], as the numerator and
    the denominator of the fraction, which NLTK does not normalize. *)
Definition modified_precision (references : list (list string))
    (hypothesis : list string) (n : nat) : nat * nat :=
  let hyp_ngrams := ngrams hypothesis n in
  let keys := remove_dups hyp_ngrams in
  let numerator :=
    sum_list_with
      (λ ngram, count ngram hyp_ngrams `min` max_count references n ngram)
      keys in
  let denominator :=
    1 `max` sum_list_with (λ ngram, count ngram hyp_ngrams) keys in
  (numerator, denominator).

(** The key [(abs(ref_len - hyp_len), ref_len)] of [closest_ref_length]. *)
Definition closer (hyp_len a b : nat) : nat :=
  let da := (a - hyp_len) + (hyp_len - a) in
  let db := (b - hyp_len) + (hyp_len - b) in
  if decide (da < db ∨ (da = db ∧ a ≤ b)) then a else b.

(** [closest_ref_length(references, hyp_len)]; [bleu] always passes one
    reference. *)
Fixpoint closest_ref_length (references : list (list string))
    (hyp_len : nat) : nat :=
  match references with
  | [] => 0
  | [reference] => length reference
  | reference :: rest =>
      closer hyp_len (length reference) (closest_ref_length rest hyp_len)
  end.

(** [brevity_penalty(closest_ref_len, hyp_len)] *)
Definition brevity_penalty (closest_ref_len hyp_len : nat) : R :=
  if decide (closest_ref_len < hyp_len) then 1%R
  else if decide (hyp_len = 0) then 0%R
  else exp (1 - INR closest_ref_len / INR hyp_len).

(** [sys.float_info.min] *)
Definition float_min : R := (/ 2 ^ 1022)%R.

(** [SmoothingFunction().method0] on one precision: a fraction whose
    numerator is 0 is replaced by [sys.float_info.min]. *)
Definition method0 (p : nat * nat) : R :=
  if decide (p.1 = 0) then float_min else (INR p.1 / INR p.2)%R.

(** [sentence_bleu(references, hypothesis, weights)] *)
Definition sentence_bleu (references : list (list string))
    (hypothesis : list string) (weights : weights) : R :=
  let '(wt1, wt2, wt3, wt4) := weights in
  let p_1 := modified_precision references hypothesis 1 in
  let p_2 := modified_precision references hypothesis 2 in
  let p_3 := modified_precision references hypothesis 3 in
  let p_4 := modified_precision references hypothesis 4 in
  let hyp_len := length hypothesis in
  let bp := brevity_penalty (closest_ref_length references hyp_len) hyp_len in
  if decide (p_1.1 = 0) then 0%R
  else
    let s := (wt1 * ln (method0 p_1) + wt2 * ln (method0 p_2)
              + wt3 * ln (method0 p_3) + wt4 * ln (method0 p_4))%R in
    (bp * exp s)%R.

End Nltk.

(** ** Shapes of what is formatted and written *)

(** The instruction prompt of the two formatting functions: the
    instruction, the tokenized context and, under the label, the tokenized
    third field. *)
Definition prompt (instruction context label third : string) : string :=
  "### Instruction: " +:+ LF +:+ instruction +:+ LF +:+ LF
  +:+ "### Context: " +:+ LF +:+ context +:+ LF +:+ LF
  +:+ "### " +:+ label +:+ ": " +:+ LF +:+ third +:+ LF +:+ LF
  +:+ LF +:+ LF +:+ "### Response: " +:+ LF.

(** The document that [compute_metric] writes and returns. *)
Definition results_document (predictions references : list string) : value :=
  VDict [(KStr "predictions", strings_value predictions);
         (KStr "references", strings_value references)].

(** A file as the program writes it: UTF-8, [ensure_ascii=False],
    [indent=2]. *)
Definition json_file (obj : value) : File :=
  {| encoding := "utf-8"; ensure_ascii := false; indent := Some 2;
     document := obj |}.

(** ** Instances to run the examples with *)

(** A tokenizer: the words between white space. Like the spaCy pipeline it
    yields no token for the empty text. *)
Definition words_nlp (sentence : string) : list Token :=
  (λ w, {| text := w |}) <$> String.words sentence.

(** A stand-in for the libraries of the pipeline: a dataset is the list of
    its rows, nothing is trained, the model repeats the prompt. *)
Module Toy.

Definition Dataset : Type := list (gmap string string).

Definition os_makedirs (path : string) : io unit := mret ().
Definition from_pretrained (name : string) : io unit := mret ().

Definition row (i_qg i_ag c q a : string) : gmap string string :=
  <["answer" := a]> (<["question" := q]> (<["context" := c]>
    (<["instruction_ag" := i_ag]> (<["instruction_qg" := i_qg]> ∅)))).

Definition example : gmap string string :=
  row "Hoi" "Dap" "Ha Noi la thu do" "Thu do la gi" "Ha Noi".

Definition split : Dataset := [example].

Definition load_dataset (name : string) : io (gmap string Dataset) :=
  mret (<["test" := split]> (<["validation" := split]>
          (<["train" := split]> ∅))).

Definition Dataset_map (f : gmap string string → py (gmap string string))
    (n : nat) (d : Dataset) : io Dataset :=
  lift (mapM (λ r, out ← f r; mret (out ∪ r)) d).

Definition Dataset_remove_columns (names : list string) (d : Dataset)
  : io Dataset :=
  mret ((λ r, foldr delete r names) <$> d).

Definition Dataset_column (d : Dataset) (name : string) : io value :=
  lift (l ← mapM (λ r, getitem r name) d; mret (strings_value l)).

Definition Dataset_tokenize (tokenizer : unit) (src tgt n : nat)
    (d : Dataset) : io Dataset := mret d.

Definition trainer_train (conf : Config) (model tokenizer : unit)
    (train val : Dataset) : io unit := mret ().

Definition DataLoader (tokenizer model : unit) (d : Dataset) (n : nat)
  : io (list Dataset) := mret [d].

Definition model_generate (model : unit) (batch : Dataset) (n : nat)
  : io (list string) :=
  lift (mapM (λ r, getitem r "input_seq") batch).

Definition tokenizer_decode (tokenizer : unit) (ids : string) : string := ids.

Definition batch_labels (tokenizer : unit) (batch : Dataset) : list string :=
  omap (λ r, r !! "output_seq") batch.

Definition rouge_compute (p r : value) : io (list (string * R)) := mret [].
Definition meteor_compute (p r : value) : io value := mret (VDict []).
Definition bertscore_compute (p r : value) (lang : string) : io value :=
  mret (VDict [(KStr "f1", VList [])]).
Definition np_array_mean (v : value) : io R := mret 0%R.

(** A file system in which every file can be opened for writing. *)
Definition world : World :=
  {| files := ∅; stdout := []; open_error := λ _, None |}.

(** The split after [prepare_data] for the task ['ag']. *)
Definition formatted : Dataset :=
  [ {[ "input_seq" :=
         prompt "Dap" "Ha Noi la thu do" "Question" "Thu do la gi";
       "output_seq" := "Ha Noi" ]} ].

(** What [preprocess_and_train] returns on it, and the world it leaves. *)
Definition outputs : value :=
  results_document
    [prompt "Dap" "Ha Noi la thu do" "Question" "Thu do la gi"] ["Ha Noi"].

Definition world_trained : World :=
  {| files :=
       <["/kaggle/working/cp/results.json" := json_file outputs]>
         (<["/kaggle/working/cp/origin_refs.json" :=
              json_file
                (VDict [(KStr "references", strings_value ["Ha Noi"])])]>
            ∅);
     stdout := [];
     open_error := λ _, None |}.

End Toy.

(** [main] on the stand-in, with pyvi's tokenizer replaced by the identity. *)
Definition toy_main : string → io unit :=
  main Toy.Dataset unit unit Toy.Dataset string (λ s, s)
    words_nlp Nltk.sentence_bleu
    Toy.os_makedirs Toy.from_pretrained Toy.from_pretrained Toy.load_dataset
    Toy.Dataset_map Toy.Dataset_remove_columns Toy.Dataset_column
    Toy.Dataset_tokenize Toy.trainer_train Toy.DataLoader Toy.model_generate
    Toy.tokenizer_decode Toy.batch_labels Toy.rouge_compute Toy.meteor_compute
    Toy.bertscore_compute Toy.np_array_mean.

(** ** Closed forms and the words of the specification *)

(** The four weight tuples of [ws], by n-gram order. *)
Definition w1 : weights := (1, 0, 0, 0)%R.
Definition w2 : weights := (0.5, 0.5, 0, 0)%R.
Definition w3 : weights := (0.33, 0.33, 0.33, 0)%R.
Definition w4 : weights := (0.25, 0.25, 0.25, 0.25)%R.

(** The dictionary [{1: l1, 2: l2, 3: l3, 4: l4}], built as
    [bleu_scores_init] is. *)
Definition scores_of (l1 l2 l3 l4 : list R) : gmap nat (list R) :=
  <[4 := l4]> (<[3 := l3]> (<[2 := l2]> (<[1 := l1]> ∅))).

(** [sum(l) / len(l)] as a real number, for a list that is not empty. *)
Definition mean (l : list R) : R := (sum l / INR (length l))%R.

(** The dictionary that the second loop of [bleu] builds from four lists
    that are not empty. *)
Definition averages (l1 l2 l3 l4 : list R) : gmap string R :=
  <["BLEU4" := (mean l4 * 100)%R]>
    (<["BLEU3" := (mean l3 * 100)%R]>
       (<["BLEU2" := (mean l2 * 100)%R]>
          (<["BLEU1" := (mean l1 * 100)%R]> ∅))).

Section ClosedForms.

Variable nlp : string → list Token.
Variable sentence_bleu : list (list string) → list string → weights → R.

(** The score of one pair for the weights [w]: the tokens of the
    prediction are the only reference, those of the goal the hypothesis. *)
Definition pair_score (w : weights) (pair : string * string) : R :=
  sentence_bleu [text <$> nlp pair.1] (text <$> nlp pair.2) w.

(** What [bleu] returns for the pairs it has scored. *)
Definition bleu_of_pairs (pairs : list (string * string)) : gmap string R :=
  averages (pair_score w1 <$> pairs) (pair_score w2 <$> pairs)
           (pair_score w3 <$> pairs) (pair_score w4 <$> pairs).

(** The specification's aggregation, in its words: for each order [n]
    with its weight tuple, the arithmetic mean, over the pairs, of the
    score of the tokenized sentences, scaled by 100. The roles are those of
    textbook BLEU and of [sentence_bleu(references, hypothesis)]: the
    tokens of the reference sentence are the one reference, the tokens of
    the prediction are the hypothesis that is scored. *)
Definition arithmetic_mean (xs : list R) : R :=
  (foldr Rplus 0 xs / INR (length xs))%R.

Definition weight_schedule : list (nat * weights) :=
  [ (1, (1, 0, 0, 0)%R); (2, (0.5, 0.5, 0, 0)%R);
    (3, (0.33, 0.33, 0.33, 0)%R); (4, (0.25, 0.25, 0.25, 0.25)%R) ].

Definition textbook_bleu (predict goal : list string) : gmap string R :=
  list_to_map
    ((λ nw : nat * weights,
        ("BLEU" +:+ pretty nw.1,
         (arithmetic_mean
            ((λ pg : string * string,
                sentence_bleu [text <$> nlp pg.2] (text <$> nlp pg.1) nw.2)
             <$> zip predict goal) * 100)%R))
     <$> weight_schedule).

End ClosedForms.

(** The library calls of [bleu] as relations, when they are functions. *)
Definition nlp_graph (nlp : string → list Token) (sentence : string)
    (doc : list Token) : Prop :=
  doc = nlp sentence.

Definition sentence_bleu_graph
    (sentence_bleu : list (list string) → list string → weights → R)
    (refs : list (list string)) (hyp : list string) (w : weights)
    (score : R) : Prop :=
  score = sentence_bleu refs hyp w.

(** Every BLEU-n of the outcome is 100. *)
Definition scores_100 (outcome : py (gmap string R)) : Prop :=
  ∃ d, outcome = mret d
       ∧ ∀ n, n ∈ range 1 5 → d !! bleu_key n = Some 100%R.

(** Every BLEU-n of the outcome lies between 0 and 100. *)
Definition scores_in_range (outcome : py (gmap string R)) : Prop :=
  ∃ d, outcome = mret d
       ∧ ∀ n, n ∈ range 1 5 →
           ∃ v, d !! bleu_key n = Some v ∧ (0 <= v <= 100)%R.

(** [Config(name, task=t)] *)
Definition Config_new_task (name t : string) : Config :=
  post_init
    {| model_name := name;
       dataset_name := "vinewsqa";
       pretrained_model_name_or_path := "VietAI/vit5-base";
       checkpoint := "/kaggle/working/cp";
       task := t;
       tgt_len := 256;
       src_len := 1024;
       seed := 42;
       num_proc := 16;
       per_device_train_batch_size := 4;
       per_device_eval_batch_size := 16;
       num_epochs := 10;
       lr := (1 / 10000)%R;
       warmup_ratio := (5 / 100)%R;
       weight_decay := (15 / 1000)%R |}.

Section PrepareWith.

Variable Dataset : Type.
Variable load_dataset : string → io (gmap string Dataset).
Variable Dataset_map :
  (gmap string string → py (gmap string string)) → nat → Dataset → io Dataset.
Variable Dataset_remove_columns : list string → Dataset → io Dataset.

(** What [prepare_data] does when one formatting function is applied to
    the three splits. *)
Definition prepare_data_with
    (formatting_func : gmap string string → py (gmap string string))
    (conf : Config) : io (Dataset * Dataset * Dataset) :=
  data ← load_dataset ("shnl/" +:+ dataset_name conf);
  train_dataset ← lift (getitem data "train");
  dev_dataset ← lift (getitem data "validation");
  test_dataset ← lift (getitem data "test");
  train_dataset ←
    Dataset_map formatting_func (num_proc conf) train_dataset
      ≫= Dataset_remove_columns raw_columns;
  dev_dataset ←
    Dataset_map formatting_func (num_proc conf) dev_dataset
      ≫= Dataset_remove_columns raw_columns;
  test_dataset ←
    Dataset_map formatting_func (num_proc conf) test_dataset
      ≫= Dataset_remove_columns raw_columns;
  mret (train_dataset, dev_dataset, test_dataset).

End PrepareWith.

(** * Part II: the properties *)

(** ** Sums and means *)

Lemma sum_foldl_shift (l : list R) : ∀ a, foldl Rplus a l = (a + sum l)%R.
Proof.
  unfold sum. induction l as [|x l IH]; intros a; simpl.
  - lra.
  - rewrite (IH (a + x)%R), (IH (0 + x)%R). lra.
Qed.

Lemma sum_cons x (l : list R) : sum (x :: l) = (x + sum l)%R.
Proof. unfold sum at 1. simpl. rewrite sum_foldl_shift. lra. Qed.

Lemma sum_foldr (l : list R) : sum l = foldr Rplus 0%R l.
Proof.
  induction l as [|x l IH]; [reflexivity|].
  rewrite sum_cons, IH. reflexivity.
Qed.

Lemma mean_arithmetic_mean (l : list R) : mean l = arithmetic_mean l.
Proof. unfold mean, arithmetic_mean. by rewrite sum_foldr. Qed.

Lemma sum_bounds (l : list R) :
  Forall (λ x, 0 <= x <= 1)%R l → (0 <= sum l <= INR (length l))%R.
Proof.
  induction 1 as [|x l Hx _ IH].
  - simpl. unfold sum. simpl. lra.
  - rewrite sum_cons. change (length (x :: l)) with (S (length l)).
    rewrite S_INR. lra.
Qed.

Lemma INR_length_pos {A} (l : list A) : l ≠ [] → (0 < INR (length l))%R.
Proof.
  destruct l; [done|]. intros _. apply lt_0_INR. simpl. lia.
Qed.

Lemma div_bounds (a b : R) :
  (0 < b)%R → (0 <= a <= b)%R → (0 <= a / b <= 1)%R.
Proof.
  intros Hb [Hlo Hhi].
  assert (0 < / b)%R as Hinv by (apply Rinv_0_lt_compat; lra).
  assert (b * / b = 1)%R as Hone by (apply Rinv_r; lra).
  unfold Rdiv. split; nra.
Qed.

Lemma mean_bounds (l : list R) :
  l ≠ [] → Forall (λ x, 0 <= x <= 1)%R l → (0 <= mean l * 100 <= 100)%R.
Proof.
  intros Hl Hall. pose proof (sum_bounds l Hall) as [Hlo Hhi].
  pose proof (INR_length_pos l Hl) as Hn. unfold mean.
  pose proof (div_bounds (sum l) (INR (length l)) Hn (conj Hlo Hhi)). lra.
Qed.

Lemma sum_ones (l : list R) :
  Forall (λ x, x = 1%R) l → sum l = INR (length l).
Proof.
  induction 1 as [|x l Hx _ IH].
  - reflexivity.
  - rewrite sum_cons, IH, Hx. change (length (1%R :: l)) with (S (length l)).
    rewrite S_INR. lra.
Qed.

Lemma mean_ones (l : list R) :
  l ≠ [] → Forall (λ x, x = 1%R) l → (mean l * 100 = 100)%R.
Proof.
  intros Hl Hall. unfold mean. rewrite (sum_ones l Hall).
  pose proof (INR_length_pos l Hl). field. lra.
Qed.

(** ** The two loops of [bleu] *)

Section BleuLoops.

Variable nlp : string → list Token.
Variable sentence_bleu : list (list string) → list string → weights → R.

#[local] Abbreviation pair_score := (pair_score nlp sentence_bleu).
#[local] Abbreviation bleu_of_pairs := (bleu_of_pairs nlp sentence_bleu).

Lemma score_pair_scores_of l1 l2 l3 l4 pair :
  score_pair nlp sentence_bleu (scores_of l1 l2 l3 l4) pair =
  mret (scores_of (l1 ++ [pair_score w1 pair]) (l2 ++ [pair_score w2 pair])
                  (l3 ++ [pair_score w3 pair]) (l4 ++ [pair_score w4 pair])).
Proof. destruct pair as [sent1 sent2]. reflexivity. Qed.

Lemma for_each_score_pair pairs : ∀ l1 l2 l3 l4,
  for_each pairs (score_pair nlp sentence_bleu) (scores_of l1 l2 l3 l4) =
  mret (scores_of (l1 ++ (pair_score w1 <$> pairs))
                  (l2 ++ (pair_score w2 <$> pairs))
                  (l3 ++ (pair_score w3 <$> pairs))
                  (l4 ++ (pair_score w4 <$> pairs))).
Proof.
  induction pairs as [|pair pairs IH]; intros l1 l2 l3 l4.
  - simpl. by rewrite !app_nil_r.
  - cbn [for_each]. rewrite score_pair_scores_of. cbn.
    rewrite IH. by rewrite <- !app_assoc.
Qed.

Lemma for_each_average_order l1 l2 l3 l4 :
  l1 ≠ [] → l2 ≠ [] → l3 ≠ [] → l4 ≠ [] →
  for_each (range 1 5) (average_order (scores_of l1 l2 l3 l4)) ∅ =
  mret (averages l1 l2 l3 l4).
Proof.
  intros H1 H2 H3 H4.
  destruct l1, l2, l3, l4; try done.
Qed.

(** [bleu] in closed form: it raises when [zip] yields no pair and
    returns the four scaled means otherwise. *)
Lemma bleu_unfold predict goal :
  bleu nlp sentence_bleu predict goal =
  match zip predict goal with
  | [] => raise ZeroDivisionError
  | pairs => mret (bleu_of_pairs pairs)
  end.
Proof.
  unfold bleu.
  change bleu_scores_init with (scores_of [] [] [] []).
  rewrite for_each_score_pair. cbn [app].
  destruct (zip predict goal) as [|pair pairs] eqn:Hz.
  - reflexivity.
  - change (mret ?x ≫= ?f) with (f x). cbv beta.
    rewrite for_each_average_order by done. reflexivity.
Qed.

(** *** The pairs that [zip] yields *)

Lemma zip_nonempty (predict goal : list string) :
  predict ≠ [] → goal ≠ [] → zip predict goal ≠ [].
Proof. destruct predict, goal; done. Qed.

Lemma bleu_nonempty predict goal :
  predict ≠ [] → goal ≠ [] →
  bleu nlp sentence_bleu predict goal = mret (bleu_of_pairs (zip predict goal)).
Proof.
  intros Hp Hg. rewrite bleu_unfold.
  pose proof (zip_nonempty _ _ Hp Hg).
  destruct (zip predict goal); done.
Qed.

(** The only exception of [bleu] is the division by zero of the empty
    case. *)
Lemma bleu_raises predict goal e :
  bleu nlp sentence_bleu predict goal = raise e →
  e = ZeroDivisionError ∧ zip predict goal = [].
Proof.
  rewrite bleu_unfold. destruct (zip predict goal); [|done].
  intros He. by injection He as <-.
Qed.

Lemma zip_take_min (predict goal : list string) :
  zip predict goal =
  zip (take (length predict `min` length goal) predict)
      (take (length predict `min` length goal) goal).
Proof.
  revert goal. induction predict as [|p predict IH]; intros [|g goal];
    simpl; try reflexivity.
  f_equal. apply IH.
Qed.

Lemma length_zip_min (predict goal : list string) :
  length (zip predict goal) = length predict `min` length goal.
Proof.
  revert goal. induction predict as [|p predict IH]; intros [|g goal];
    simpl; try reflexivity.
  f_equal. apply IH.
Qed.

Lemma zip_diagonal (predict : list string) :
  zip predict predict = (λ sent, (sent, sent)) <$> predict.
Proof. induction predict as [|p predict IH]; simpl; by f_equal. Qed.

Lemma bleu_of_pairs_lookup pairs n w :
  (n, w) ∈ weight_schedule →
  bleu_of_pairs pairs !! bleu_key n =
  Some (mean (pair_score w <$> pairs) * 100)%R.
Proof.
  unfold weight_schedule. rewrite !elem_of_cons, elem_of_nil.
  intros [H|[H|[H|[H|[]]]]]; injection H as H1 H2; subst n w; reflexivity.
Qed.

Lemma range_1_5 n : n ∈ range 1 5 ↔ n = 1 ∨ n = 2 ∨ n = 3 ∨ n = 4.
Proof.
  unfold range. simpl. rewrite !elem_of_cons, elem_of_nil. tauto.
Qed.

Lemma weight_schedule_ws n w : (n, w) ∈ weight_schedule → w ∈ ws.
Proof.
  unfold weight_schedule, ws. rewrite !elem_of_cons, !elem_of_nil.
  intros [H|[H|[H|[H|[]]]]]; injection H as H1 H2; subst n w; tauto.
Qed.

Lemma range_weight_schedule n :
  n ∈ range 1 5 → ∃ w, (n, w) ∈ weight_schedule.
Proof.
  rewrite range_1_5. unfold weight_schedule.
  intros [-> | [-> | [-> | ->]]]; eexists; rewrite !elem_of_cons; eauto 6.
Qed.

(** *** What [bleu] returns *)

(** C1, as amended: for empty prediction and reference lists [bleu] raises
    the [ZeroDivisionError] of the averaging division [sum([]) / len([])];
    no check rejects the input before it. *)
Theorem bleu_empty_lists_zero_division :
  bleu nlp sentence_bleu [] [] = raise ZeroDivisionError.
Proof. reflexivity. Qed.

Lemma scores_exchanged w (predict goal : list string) :
  (λ pg : string * string,
     sentence_bleu [text <$> nlp pg.2] (text <$> nlp pg.1) w)
  <$> zip goal predict =
  pair_score w <$> zip predict goal.
Proof.
  revert goal. induction predict as [|p predict IH]; intros [|g goal];
    simpl; try reflexivity.
  f_equal. apply IH.
Qed.

(** What [bleu] computes is the textbook aggregation of the two lists in
    exchanged roles: the iteration, the four weight tuples, the mean and
    the scaling are those of the specification, but each prediction is
    passed to [sentence_bleu] as the reference and each reference as the
    hypothesis. *)
Lemma bleu_textbook_exchanged predict goal :
  predict ≠ [] → goal ≠ [] →
  bleu nlp sentence_bleu predict goal =
  mret (textbook_bleu nlp sentence_bleu goal predict).
Proof.
  intros Hp Hg. rewrite bleu_nonempty by done. f_equal.
  unfold textbook_bleu, bleu_of_pairs, averages.
  rewrite !mean_arithmetic_mean. cbn [fmap list_fmap weight_schedule].
  cbn [fst snd]. rewrite !scores_exchanged. reflexivity.
Qed.

(** The pairs of [zip], by position. *)
Lemma zip_indexed (predict goal : list string) :
  zip predict goal =
  (λ i, (predict !!! i, goal !!! i))
  <$> seq 0 (length predict `min` length goal).
Proof.
  revert goal. induction predict as [|p predict IH]; intros [|g goal];
    simpl; try reflexivity.
  f_equal. rewrite IH, <- fmap_S_seq, <- list_fmap_compose. reflexivity.
Qed.

(** Unequal lengths are not detected: [bleu] does on the two lists what it
    does on their first [min(m, n)] items. *)
Lemma bleu_take_min predict goal :
  bleu nlp sentence_bleu predict goal =
  bleu nlp sentence_bleu
    (take (length predict `min` length goal) predict)
    (take (length predict `min` length goal) goal).
Proof. rewrite !bleu_unfold. by rewrite <- zip_take_min. Qed.

(** C9, as amended: for lists of lengths m and n with [min(m, n) >= 1],
    equal or not, [bleu] rejects nothing: it returns, for each order, the
    sum of the scores of the pairs at the positions below [min(m, n)],
    divided by [min(m, n)] and scaled by 100. *)
Theorem bleu_zip_truncation predict goal :
  1 ≤ length predict `min` length goal →
  ∃ d, bleu nlp sentence_bleu predict goal = mret d
       ∧ ∀ n w, (n, w) ∈ weight_schedule →
           d !! bleu_key n =
           Some (foldr Rplus 0
                   ((λ i, sentence_bleu [text <$> nlp (predict !!! i)]
                            (text <$> nlp (goal !!! i)) w)
                    <$> seq 0 (length predict `min` length goal))
                 / INR (length predict `min` length goal) * 100)%R.
Proof.
  intros Hk. exists (bleu_of_pairs (zip predict goal)). split.
  - apply bleu_nonempty; intros ->; simpl in Hk; lia.
  - intros n w Hnw. rewrite (bleu_of_pairs_lookup _ n w Hnw).
    unfold mean. rewrite sum_foldr, length_fmap, length_zip_min.
    rewrite zip_indexed at 1. rewrite <- list_fmap_compose. reflexivity.
Qed.

(** C3: for prediction and reference lists that are not empty, each of
    BLEU1..BLEU4 returned by [bleu] lies in [0, 100], [sentence_bleu]
    returning a score in [0, 1] for the four weight tuples. *)
Theorem bleu_scores_in_range predict goal :
  predict ≠ [] → goal ≠ [] →
  (∀ references hypothesis w, w ∈ ws →
     (0 <= sentence_bleu references hypothesis w <= 1)%R) →
  scores_in_range (bleu nlp sentence_bleu predict goal).
Proof.
  intros Hp Hg Hsb. exists (bleu_of_pairs (zip predict goal)). split.
  - by apply bleu_nonempty.
  - intros n Hn. destruct (range_weight_schedule n Hn) as [w Hw].
    eexists. split; [by apply bleu_of_pairs_lookup|].
    apply mean_bounds.
    + pose proof (zip_nonempty _ _ Hp Hg). by destruct (zip predict goal).
    + apply Forall_fmap, Forall_forall. intros pair _. apply Hsb.
      by apply (weight_schedule_ws n).
Qed.

(** C2, as amended: when every sentence of a list that is not empty is its
    own reference and [sentence_bleu] scores its tokens 1.0 against
    themselves under each of the four weight tuples, [bleu] returns 100 for
    each of BLEU-1..4. *)
Theorem bleu_identical_scores_100 predict :
  predict ≠ [] →
  (∀ sent w, sent ∈ predict → w ∈ ws →
     sentence_bleu [text <$> nlp sent] (text <$> nlp sent) w = 1%R) →
  scores_100 (bleu nlp sentence_bleu predict predict).
Proof.
  intros Hp Hsb. exists (bleu_of_pairs (zip predict predict)). split.
  - by apply bleu_nonempty.
  - intros n Hn. destruct (range_weight_schedule n Hn) as [w Hw].
    rewrite (bleu_of_pairs_lookup _ n w Hw). f_equal.
    apply mean_ones.
    + rewrite zip_diagonal. by destruct predict.
    + rewrite zip_diagonal, <- list_fmap_compose.
      apply Forall_fmap, Forall_forall. intros sent Hsent. simpl.
      apply Hsb; [done|]. by apply (weight_schedule_ws n).
Qed.

End BleuLoops.

(** ** The scorer of NLTK *)

Section NltkScores.

#[local] Open Scope R_scope.

Lemma ln_nonpos x : 0 < x <= 1 → ln x <= 0.
Proof.
  intros [Hpos [Hlt| ->]].
  - rewrite <- ln_1. left. by apply ln_increasing.
  - rewrite ln_1. lra.
Qed.

Lemma exp_nonpos x : x <= 0 → 0 < exp x <= 1.
Proof.
  intros [Hlt| ->].
  - split; [apply exp_pos|]. rewrite <- exp_0. left. by apply exp_increasing.
  - rewrite exp_0. lra.
Qed.

Lemma float_min_range : 0 < Nltk.float_min <= 1.
Proof.
  unfold Nltk.float_min.
  assert (1 <= 2 ^ 1022) as Hpow by (apply pow_R1_Rle; lra).
  split.
  - apply Rinv_0_lt_compat. lra.
  - rewrite <- Rinv_1. apply Rinv_le_contravar; lra.
Qed.

Lemma sum_list_with_le {A} (f g : A → nat) (l : list A) :
  (∀ x, f x ≤ g x)%nat → (sum_list_with f l ≤ sum_list_with g l)%nat.
Proof.
  intros Hfg. induction l as [|x l IH]; simpl; [lia|].
  specialize (Hfg x). lia.
Qed.

Lemma sum_list_with_eq {A} (f g : A → nat) (l : list A) :
  (∀ x, f x = g x) → sum_list_with f l = sum_list_with g l.
Proof.
  intros Hfg. induction l as [|x l IH]; simpl; [done|].
  by rewrite Hfg, IH.
Qed.

Lemma method0_same k : (1 ≤ k)%nat → Nltk.method0 (k, k) = 1.
Proof.
  intros Hk. unfold Nltk.method0. cbn [fst snd].
  rewrite decide_False by lia.
  assert (0 < INR k) by (apply lt_0_INR; lia). field. lra.
Qed.

Lemma modified_precision_le references hypothesis n :
  let p := Nltk.modified_precision references hypothesis n in
  (p.1 ≤ p.2 ∧ 1 ≤ p.2)%nat.
Proof.
  simpl. split; [|lia].
  etransitivity; [|apply Nat.le_max_r].
  apply sum_list_with_le. intros ngram. lia.
Qed.

Lemma method0_range (p : nat * nat) :
  (p.1 ≤ p.2)%nat → (1 ≤ p.2)%nat → 0 < Nltk.method0 p <= 1.
Proof.
  intros Hle Hden. unfold Nltk.method0. case_decide as Hnum.
  - apply float_min_range.
  - assert (0 < INR p.1) by (apply lt_0_INR; lia).
    assert (INR p.1 <= INR p.2) by (apply le_INR; lia).
    pose proof (div_bounds (INR p.1) (INR p.2)) as Hdiv.
    assert (0 < / INR p.2) by (apply Rinv_0_lt_compat; lra).
    split; [unfold Rdiv; nra|]. apply Hdiv; lra.
Qed.

Lemma weighted_log_nonpos wt (p : nat * nat) :
  0 <= wt → (p.1 ≤ p.2)%nat → (1 ≤ p.2)%nat → wt * ln (Nltk.method0 p) <= 0.
Proof.
  intros Hwt Hle Hden.
  pose proof (ln_nonpos _ (method0_range p Hle Hden)). nra.
Qed.

Lemma brevity_penalty_range closest_ref_len hyp_len :
  0 <= Nltk.brevity_penalty closest_ref_len hyp_len <= 1.
Proof.
  unfold Nltk.brevity_penalty. repeat case_decide; try lra.
  assert (0 < INR hyp_len) by (apply lt_0_INR; lia).
  assert (INR hyp_len <= INR closest_ref_len) by (apply le_INR; lia).
  assert (1 - INR closest_ref_len / INR hyp_len <= 0) as Hexp.
  { assert (1 <= INR closest_ref_len / INR hyp_len); [|lra].
    assert (0 < / INR hyp_len) by (apply Rinv_0_lt_compat; lra).
    assert (INR hyp_len * / INR hyp_len = 1) by (apply Rinv_r; lra).
    unfold Rdiv. nra. }
  pose proof (exp_nonpos _ Hexp). lra.
Qed.

(** For weights that are not negative the score of NLTK lies in [0, 1]. *)
Lemma nltk_sentence_bleu_range references hypothesis wt1 wt2 wt3 wt4 :
  0 <= wt1 → 0 <= wt2 → 0 <= wt3 → 0 <= wt4 →
  0 <= Nltk.sentence_bleu references hypothesis (wt1, wt2, wt3, wt4) <= 1.
Proof.
  intros H1 H2 H3 H4. unfold Nltk.sentence_bleu.
  case_decide; [lra|].
  pose proof (brevity_penalty_range
    (Nltk.closest_ref_length references (length hypothesis))
    (length hypothesis)) as Hbp.
  pose proof (modified_precision_le references hypothesis 1) as [? ?].
  pose proof (modified_precision_le references hypothesis 2) as [? ?].
  pose proof (modified_precision_le references hypothesis 3) as [? ?].
  pose proof (modified_precision_le references hypothesis 4) as [? ?].
  pose proof (weighted_log_nonpos wt1
    (Nltk.modified_precision references hypothesis 1) H1) as L1.
  pose proof (weighted_log_nonpos wt2
    (Nltk.modified_precision references hypothesis 2) H2) as L2.
  pose proof (weighted_log_nonpos wt3
    (Nltk.modified_precision references hypothesis 3) H3) as L3.
  pose proof (weighted_log_nonpos wt4
    (Nltk.modified_precision references hypothesis 4) H4) as L4.
  match goal with |- 0 <= _ * exp ?s <= 1 =>
    assert (s <= 0) as Hs by (specialize (L1 ltac:(done) ltac:(done));
      specialize (L2 ltac:(done) ltac:(done));
      specialize (L3 ltac:(done) ltac:(done));
      specialize (L4 ltac:(done) ltac:(done)); lra);
    pose proof (exp_nonpos s Hs)
  end.
  nra.
Qed.

Lemma nltk_sentence_bleu_range_ws references hypothesis w :
  w ∈ ws → 0 <= Nltk.sentence_bleu references hypothesis w <= 1.
Proof.
  unfold ws. rewrite !elem_of_cons, elem_of_nil.
  intros [-> | [-> | [-> | [-> | []]]]];
    apply nltk_sentence_bleu_range; lra.
Qed.

Lemma float_min_lt_1 : Nltk.float_min < 1.
Proof.
  unfold Nltk.float_min.
  assert (1 < 2 ^ 1022) as Hpow by (apply Rlt_pow_R1; [lra | lia]).
  rewrite <- Rinv_1. apply Rinv_lt_contravar; lra.
Qed.

Lemma ngrams_head tokens n :
  (1 ≤ n ≤ length tokens)%nat →
  ∃ rest, Nltk.ngrams tokens n = take n tokens :: rest.
Proof.
  intros [Hn Hlen]. destruct tokens as [|t tokens]; [simpl in Hlen; lia|].
  cbn [Nltk.ngrams]. rewrite decide_True by done. eauto.
Qed.

Lemma count_head x items : (1 ≤ Nltk.count x (x :: items))%nat.
Proof.
  unfold Nltk.count. rewrite filter_cons_True by done. simpl. lia.
Qed.

(** A sentence scored against itself: every n-gram is matched. *)
Lemma modified_precision_self tokens n :
  (1 ≤ n ≤ length tokens)%nat →
  ∃ k, (1 ≤ k)%nat ∧ Nltk.modified_precision [tokens] tokens n = (k, k).
Proof.
  intros Hn. destruct (ngrams_head tokens n Hn) as [rest Hgrams].
  unfold Nltk.modified_precision.
  set (hyp_ngrams := Nltk.ngrams tokens n) in *.
  set (total := sum_list_with (λ ngram, Nltk.count ngram hyp_ngrams)
                  (remove_dups hyp_ngrams)).
  assert (1 ≤ total)%nat as Htotal.
  { etransitivity; [apply (count_head (take n tokens) rest)|].
    rewrite <- Hgrams.
    apply (sum_list_with_in _ (λ ngram, Nltk.count ngram hyp_ngrams)).
    rewrite elem_of_remove_dups, Hgrams. left. }
  exists total. split; [done|]. f_equal; [|lia].
  subst total. apply sum_list_with_eq. intros ngram.
  unfold Nltk.max_count. simpl. fold hyp_ngrams. lia.
Qed.

(** A sentence of at least four tokens, scored against itself, gets 1.0
    whatever the weights. *)
Lemma nltk_sentence_bleu_self tokens w :
  (4 ≤ length tokens)%nat → Nltk.sentence_bleu [tokens] tokens w = 1.
Proof.
  intros Hlen. destruct w as [[[wt1 wt2] wt3] wt4].
  destruct (modified_precision_self tokens 1) as (k1 & Hk1 & E1); [lia|].
  destruct (modified_precision_self tokens 2) as (k2 & Hk2 & E2); [lia|].
  destruct (modified_precision_self tokens 3) as (k3 & Hk3 & E3); [lia|].
  destruct (modified_precision_self tokens 4) as (k4 & Hk4 & E4); [lia|].
  unfold Nltk.sentence_bleu. rewrite E1, E2, E3, E4. cbn [fst].
  rewrite decide_False by lia.
  rewrite !method0_same by done. rewrite ln_1.
  unfold Nltk.brevity_penalty. cbn [Nltk.closest_ref_length].
  rewrite decide_False by lia. rewrite decide_False by lia.
  assert (0 < INR (length tokens)) by (apply lt_0_INR; lia).
  replace (1 - INR (length tokens) / INR (length tokens)) with 0
    by (field; lra).
  replace (wt1 * 0 + wt2 * 0 + wt3 * 0 + wt4 * 0) with 0 by lra.
  rewrite exp_0. lra.
Qed.

End NltkScores.

(** ** [bleu] on concrete sentences *)

Example words_nlp_empty : words_nlp "" = [].
Proof. reflexivity. Qed.

Example words_nlp_four :
  text <$> words_nlp "ai la tac gia" = ["ai"; "la"; "tac"; "gia"].
Proof. reflexivity. Qed.

Example modified_precision_examples :
  Nltk.modified_precision [["a"; "b"; "a"]] ["a"; "b"; "a"] 1 = (3, 3)
  ∧ Nltk.modified_precision [["a"; "b"; "a"]] ["a"; "b"; "a"] 2 = (2, 2)
  ∧ Nltk.modified_precision [["a"; "b"; "a"]] ["a"; "b"; "a"] 3 = (1, 1)
  ∧ Nltk.modified_precision [["a"; "b"]] ["a"; "b"] 3 = (0, 1)
  ∧ Nltk.modified_precision [["a"; "a"]] ["a"; "a"; "a"; "b"] 1 = (2, 4)
  ∧ Nltk.modified_precision [[]] [] 1 = (0, 1).
Proof. repeat split; reflexivity. Qed.

(** NLTK scores an empty hypothesis 0: no unigram is matched. *)
Example nltk_sentence_bleu_empty w : Nltk.sentence_bleu [[]] [] w = 0%R.
Proof. destruct w as [[[wt1 wt2] wt3] wt4]. reflexivity. Qed.

(** A sentence of two tokens against itself: without 3-grams and 4-grams
    NLTK scores it below 1.0 for the weights of BLEU-4. *)
Example nltk_sentence_bleu_two_tokens :
  (Nltk.sentence_bleu [["ha"; "noi"]] ["ha"; "noi"] w4 < 1)%R.
Proof.
  unfold Nltk.sentence_bleu, w4.
  change (Nltk.modified_precision [["ha"; "noi"]] ["ha"; "noi"] 1)
    with (2, 2).
  change (Nltk.modified_precision [["ha"; "noi"]] ["ha"; "noi"] 2)
    with (1, 1).
  change (Nltk.modified_precision [["ha"; "noi"]] ["ha"; "noi"] 3)
    with (0, 1).
  change (Nltk.modified_precision [["ha"; "noi"]] ["ha"; "noi"] 4)
    with (0, 1).
  cbn [fst]. rewrite decide_False by lia.
  rewrite !method0_same by lia.
  change (Nltk.method0 (0, 1)) with Nltk.float_min.
  pose proof (brevity_penalty_range
    (Nltk.closest_ref_length [["ha"; "noi"]] (length ["ha"; "noi"]))
    (length ["ha"; "noi"])) as [Hbp0 Hbp1].
  pose proof float_min_range as [Hpos _]. pose proof float_min_lt_1 as Hlt.
  pose proof (ln_increasing _ _ Hpos Hlt) as Hln. rewrite ln_1 in *.
  match goal with |- (_ * exp ?s < 1)%R =>
    assert (s < 0)%R as Hs by lra;
    pose proof (exp_increasing _ _ Hs) as Hexp;
    pose proof (exp_pos s)
  end.
  rewrite exp_0 in Hexp. nra.
Qed.

(** The empty sentence against itself: every BLEU-n is 0. *)
Example bleu_empty_sentence :
  bleu words_nlp Nltk.sentence_bleu [""] [""] =
  mret (averages [0%R] [0%R] [0%R] [0%R]).
Proof. by rewrite bleu_nonempty. Qed.

Lemma bleu_words_nltk_empty_lists :
  bleu words_nlp Nltk.sentence_bleu [] [] = raise ZeroDivisionError.
Proof. reflexivity. Qed.

(** C1, counterexample: on the empty lists [bleu] does raise, and what it
    raises is the [ZeroDivisionError] of the division, not a rejection of
    the input. *)
Lemma bleu_empty_lists_not_rejected :
  ¬ ∃ e, bleu words_nlp Nltk.sentence_bleu [] [] = raise e
         ∧ e ≠ ZeroDivisionError.
Proof.
  intros (e & Hraise & Hne). apply Hne.
  rewrite bleu_words_nltk_empty_lists in Hraise.
  by injection Hraise.
Qed.

(** C2, counterexample: the empty prediction is identical to the empty
    reference; the documents have no token, NLTK matches no unigram and
    returns 0, and [bleu] scores the pair 0, not 100. *)
Lemma bleu_identical_empty_not_100 :
  ¬ scores_100 (bleu words_nlp Nltk.sentence_bleu [""] [""]).
Proof.
  intros (d & Hd & H100). rewrite bleu_empty_sentence in Hd.
  injection Hd as <-. specialize (H100 1). 
  assert (1 ∈ range 1 5) as H1 by (apply range_1_5; tauto).
  specialize (H100 H1). change (bleu_key 1) with "BLEU1" in H100.
  unfold averages in H100. rewrite lookup_insert_ne in H100 by done.
  rewrite lookup_insert_ne in H100 by done.
  rewrite lookup_insert_ne in H100 by done.
  rewrite lookup_insert_eq in H100. injection H100 as H100.
  unfold mean, sum in H100. simpl in H100. lra.
Qed.

(** The scores of NLTK for BLEU-1 on two short sentences, in both roles. *)
Lemma nltk_score_long_reference :
  Nltk.sentence_bleu [["a"; "b"; "c"; "d"; "e"]] ["a"; "b"] w1 =
  exp (1 - 5 / 2).
Proof.
  unfold Nltk.sentence_bleu, w1.
  change (Nltk.modified_precision [["a"; "b"; "c"; "d"; "e"]] ["a"; "b"] 1)
    with (2, 2).
  change (Nltk.modified_precision [["a"; "b"; "c"; "d"; "e"]] ["a"; "b"] 2)
    with (1, 1).
  change (Nltk.modified_precision [["a"; "b"; "c"; "d"; "e"]] ["a"; "b"] 3)
    with (0, 1).
  change (Nltk.modified_precision [["a"; "b"; "c"; "d"; "e"]] ["a"; "b"] 4)
    with (0, 1).
  cbn [fst]. rewrite decide_False by lia.
  rewrite !method0_same by lia. rewrite ln_1.
  unfold Nltk.brevity_penalty. cbn [Nltk.closest_ref_length length].
  rewrite decide_False by lia. rewrite decide_False by lia.
  replace (1 * 0 + 0 * 0 + 0 * ln (Nltk.method0 (0%nat, 1%nat))
           + 0 * ln (Nltk.method0 (0%nat, 1%nat)))%R with 0%R by lra.
  rewrite exp_0. replace (INR 5) with 5%R by (simpl; lra).
  replace (INR 2) with 2%R by (simpl; lra). lra.
Qed.

Lemma nltk_score_long_hypothesis :
  Nltk.sentence_bleu [["a"; "b"]] ["a"; "b"; "c"; "d"; "e"] w1 = (2 / 5)%R.
Proof.
  unfold Nltk.sentence_bleu, w1.
  change (Nltk.modified_precision [["a"; "b"]] ["a"; "b"; "c"; "d"; "e"] 1)
    with (2, 5).
  change (Nltk.modified_precision [["a"; "b"]] ["a"; "b"; "c"; "d"; "e"] 2)
    with (1, 4).
  change (Nltk.modified_precision [["a"; "b"]] ["a"; "b"; "c"; "d"; "e"] 3)
    with (0, 3).
  change (Nltk.modified_precision [["a"; "b"]] ["a"; "b"; "c"; "d"; "e"] 4)
    with (0, 2).
  cbn [fst]. rewrite decide_False by lia.
  unfold Nltk.brevity_penalty. cbn [Nltk.closest_ref_length length].
  rewrite decide_True by lia.
  match goal with |- (1 * exp ?s = _)%R =>
    replace s with (ln (Nltk.method0 (2, 5))) by lra
  end.
  unfold Nltk.method0. cbn [fst snd]. rewrite decide_False by lia.
  replace (INR 5) with 5%R by (simpl; lra).
  replace (INR 2) with 2%R by (simpl; lra).
  rewrite exp_ln by lra. lra.
Qed.

Lemma nltk_score_two_tokens_self :
  Nltk.sentence_bleu [["ha"; "noi"]] ["ha"; "noi"] w1 = 1%R.
Proof.
  unfold Nltk.sentence_bleu, w1.
  change (Nltk.modified_precision [["ha"; "noi"]] ["ha"; "noi"] 1)
    with (2, 2).
  change (Nltk.modified_precision [["ha"; "noi"]] ["ha"; "noi"] 2)
    with (1, 1).
  change (Nltk.modified_precision [["ha"; "noi"]] ["ha"; "noi"] 3)
    with (0, 1).
  change (Nltk.modified_precision [["ha"; "noi"]] ["ha"; "noi"] 4)
    with (0, 1).
  cbn [fst]. rewrite decide_False by lia.
  rewrite !method0_same by lia. rewrite ln_1.
  unfold Nltk.brevity_penalty. cbn [Nltk.closest_ref_length length].
  rewrite decide_False by lia. rewrite decide_False by lia.
  replace (1 * 0 + 0 * 0 + 0 * ln (Nltk.method0 (0%nat, 1%nat))
           + 0 * ln (Nltk.method0 (0%nat, 1%nat)))%R with 0%R by lra.
  replace (1 - INR 2 / INR 2)%R with 0%R by (simpl; lra).
  rewrite exp_0. lra.
Qed.

Lemma exp_brevity_lt : (exp (1 - 5 / 2) < 2 / 5)%R.
Proof.
  replace (1 - 5 / 2)%R with (- (3 / 2))%R by lra.
  rewrite exp_Ropp.
  assert (1 + 3 / 2 < exp (3 / 2))%R as Hexp by (apply exp_ineq1; lra).
  replace (2 / 5)%R with (/ (1 + 3 / 2))%R by lra.
  apply Rinv_lt_contravar; [|exact Hexp].
  assert (0 < exp (3 / 2))%R by apply exp_pos. nra.
Qed.

(** C5, at the failing input: a prediction of five tokens for a reference
    of two, followed by an exact answer. [bleu] returns the textbook
    aggregation of the two lists in exchanged roles, the prediction being
    passed to [sentence_bleu] as the reference: its BLEU-1 is below the 70
    of the textbook aggregation, because the short reference is scored as
    a hypothesis with a brevity penalty. *)
Theorem bleu_exchanges_reference_and_hypothesis :
  ∃ d v,
    bleu words_nlp Nltk.sentence_bleu ["a b c d e"; "ha noi"]
      ["a b"; "ha noi"] = mret d
    ∧ d = textbook_bleu words_nlp Nltk.sentence_bleu ["a b"; "ha noi"]
            ["a b c d e"; "ha noi"]
    ∧ d !! "BLEU1" = Some v
    ∧ (v < 70)%R
    ∧ textbook_bleu words_nlp Nltk.sentence_bleu ["a b c d e"; "ha noi"]
        ["a b"; "ha noi"] !! "BLEU1" = Some 70%R.
Proof.
  eexists _, _. split.
  { apply (bleu_textbook_exchanged words_nlp Nltk.sentence_bleu);
      discriminate. }
  split; [reflexivity|].
  split; [reflexivity|].
  split.
  - change (((Nltk.sentence_bleu [["a"; "b"; "c"; "d"; "e"]] ["a"; "b"] w1
              + (Nltk.sentence_bleu [["ha"; "noi"]] ["ha"; "noi"] w1 + 0))
             / INR 2 * 100 < 70)%R).
    rewrite nltk_score_long_reference, nltk_score_two_tokens_self.
    replace (INR 2) with 2%R by (simpl; lra).
    pose proof exp_brevity_lt. lra.
  - change (Some
              ((Nltk.sentence_bleu [["a"; "b"]] ["a"; "b"; "c"; "d"; "e"] w1
                + (Nltk.sentence_bleu [["ha"; "noi"]] ["ha"; "noi"] w1 + 0))
               / INR 2 * 100)%R = Some 70%R).
    rewrite nltk_score_long_hypothesis, nltk_score_two_tokens_self.
    replace (INR 2) with 2%R by (simpl; lra).
    f_equal. lra.
Qed.

(** C9, counterexample: one prediction and no reference have unequal
    lengths, and [bleu] returns no score: it raises. *)
Lemma bleu_unequal_lengths_raises :
  length ["ha noi"] ≠ length (@nil string)
  ∧ bleu words_nlp Nltk.sentence_bleu ["ha noi"] [] = raise ZeroDivisionError
  ∧ ¬ ∃ d, bleu words_nlp Nltk.sentence_bleu ["ha noi"] [] = mret d.
Proof.
  split; [discriminate|]. split; [reflexivity|].
  intros [d Hd]. discriminate Hd.
Qed.

(** C9 as amended, at three predictions for two references: the mean is
    over the two pairs. *)
Lemma bleu_zip_truncation_witness :
  1 ≤ length ["ai la tac gia"; "ha noi"; "hue"]
      `min` length ["ai la nguoi viet"; "ha noi"]
  ∧ ∃ d, bleu words_nlp Nltk.sentence_bleu
           ["ai la tac gia"; "ha noi"; "hue"] ["ai la nguoi viet"; "ha noi"]
         = mret d
         ∧ ∀ n w, (n, w) ∈ weight_schedule →
             d !! bleu_key n =
             Some ((Nltk.sentence_bleu [["ai"; "la"; "tac"; "gia"]]
                      ["ai"; "la"; "nguoi"; "viet"] w
                    + (Nltk.sentence_bleu [["ha"; "noi"]] ["ha"; "noi"] w
                       + 0))
                   / INR 2 * 100)%R.
Proof.
  assert (1 ≤ length ["ai la tac gia"; "ha noi"; "hue"]
              `min` length ["ai la nguoi viet"; "ha noi"]) as Hk
    by (simpl; lia).
  split; [exact Hk|].
  exact (bleu_zip_truncation words_nlp Nltk.sentence_bleu
           ["ai la tac gia"; "ha noi"; "hue"] ["ai la nguoi viet"; "ha noi"]
           Hk).
Defined.

(** C3, at two pairs scored by NLTK. *)
Lemma bleu_scores_in_range_witness :
  ["ai la tac gia"; "ha noi"] ≠ [] ∧ ["ai la nguoi viet"; "ha noi"] ≠ []
  ∧ (∀ references hypothesis w, w ∈ ws →
       (0 <= Nltk.sentence_bleu references hypothesis w <= 1)%R)
  ∧ scores_in_range
      (bleu words_nlp Nltk.sentence_bleu ["ai la tac gia"; "ha noi"]
         ["ai la nguoi viet"; "ha noi"]).
Proof.
  split; [discriminate|]. split; [discriminate|].
  split; [exact nltk_sentence_bleu_range_ws|].
  apply (bleu_scores_in_range words_nlp Nltk.sentence_bleu
           ["ai la tac gia"; "ha noi"] ["ai la nguoi viet"; "ha noi"]);
    [discriminate | discriminate | exact nltk_sentence_bleu_range_ws].
Defined.

Lemma nltk_scores_four_tokens sent w :
  sent ∈ ["ai la tac gia"] → w ∈ ws →
  Nltk.sentence_bleu [text <$> words_nlp sent] (text <$> words_nlp sent) w
  = 1%R.
Proof.
  intros Hsent _. apply list_elem_of_singleton in Hsent as ->.
  apply nltk_sentence_bleu_self. simpl. lia.
Qed.

(** C2 as amended, at a sentence of four tokens scored by NLTK. *)
Lemma bleu_identical_scores_100_witness :
  ["ai la tac gia"] ≠ []
  ∧ (∀ sent w, sent ∈ ["ai la tac gia"] → w ∈ ws →
       Nltk.sentence_bleu [text <$> words_nlp sent]
         (text <$> words_nlp sent) w = 1%R)
  ∧ scores_100
      (bleu words_nlp Nltk.sentence_bleu ["ai la tac gia"] ["ai la tac gia"]).
Proof.
  split; [discriminate|]. split; [exact nltk_scores_four_tokens|].
  apply (bleu_identical_scores_100 words_nlp Nltk.sentence_bleu
           ["ai la tac gia"]);
    [discriminate | exact nltk_scores_four_tokens].
Defined.

(** ** Determinism of [bleu] *)

Section BleuDeterminism.

Variable nlp_returns : string → list Token → Prop.
Variable sentence_bleu_returns :
  list (list string) → list string → weights → R → Prop.

(** Two calls of a library function on the same arguments return the
    same. *)
Hypothesis nlp_deterministic : ∀ sentence doc doc',
  nlp_returns sentence doc → nlp_returns sentence doc' → doc = doc'.
Hypothesis sentence_bleu_deterministic : ∀ refs hyp w score score',
  sentence_bleu_returns refs hyp w score →
  sentence_bleu_returns refs hyp w score' → score = score'.

Lemma score_orders_run_deterministic doc1 doc2 ns scores scores1 :
  score_orders_run sentence_bleu_returns doc1 doc2 ns scores scores1 →
  ∀ scores2,
    score_orders_run sentence_bleu_returns doc1 doc2 ns scores scores2 →
    scores1 = scores2.
Proof.
  induction 1 as [scores | n ns scores w v l scores1 Hw Hv Hl _ IH];
    intros scores2 Hrun; inversion Hrun; subst.
  - reflexivity.
  - apply IH.
    match goal with
    | Hw' : ws !! (n - 1) = Some ?w', Hl' : scores !! n = Some ?l',
      Hv' : sentence_bleu_returns _ _ ?w' ?v' |- _ =>
        rewrite Hw in Hw'; injection Hw' as <-;
        rewrite Hl in Hl'; injection Hl' as <-;
        rewrite (sentence_bleu_deterministic _ _ _ _ _ Hv Hv')
    end.
    assumption.
Qed.

Lemma score_pairs_run_deterministic pairs scores scores1 :
  score_pairs_run nlp_returns sentence_bleu_returns pairs scores scores1 →
  ∀ scores2,
    score_pairs_run nlp_returns sentence_bleu_returns pairs scores scores2 →
    scores1 = scores2.
Proof.
  induction 1 as [scores | s1 s2 pairs d1 d2 scores scores' scores1
                             Hd1 Hd2 Horders _ IH];
    intros scores2 Hrun; inversion Hrun; subst.
  - reflexivity.
  - apply IH.
    match goal with
    | Hd1' : nlp_returns s1 ?d1', Hd2' : nlp_returns s2 ?d2',
      Horders' : score_orders_run _ ?d1' ?d2' _ _ ?mid |- _ =>
        rewrite <- (nlp_deterministic _ _ _ Hd1 Hd1') in Horders';
        rewrite <- (nlp_deterministic _ _ _ Hd2 Hd2') in Horders';
        rewrite (score_orders_run_deterministic _ _ _ _ _ Horders _ Horders')
    end.
    assumption.
Qed.

(** C4: [bleu] is deterministic: two runs on the same prediction and
    reference lists end with the same outcome, the same dictionary of
    BLEU-1..4 when they return one, the calls of the tokenizer and of the
    scorer being deterministic. *)
Theorem bleu_deterministic predict goal outcome1 outcome2 :
  bleu_run nlp_returns sentence_bleu_returns predict goal outcome1 →
  bleu_run nlp_returns sentence_bleu_returns predict goal outcome2 →
  outcome1 = outcome2.
Proof.
  intros (scores1 & Hrun1 & ->) (scores2 & Hrun2 & ->).
  by rewrite (score_pairs_run_deterministic _ _ _ Hrun1 _ Hrun2).
Qed.

End BleuDeterminism.

(** When the library calls are functions, the run of [bleu] exists and ends
    with what the function [bleu] computes. *)
Section BleuRunsOfFunctions.

Variable nlp : string → list Token.
Variable sentence_bleu : list (list string) → list string → weights → R.

Lemma score_orders_run_scores_of doc1 doc2 l1 l2 l3 l4 :
  score_orders_run (sentence_bleu_graph sentence_bleu) doc1 doc2 (range 1 5)
    (scores_of l1 l2 l3 l4)
    (scores_of
       (l1 ++ [sentence_bleu [text <$> doc1] (text <$> doc2) w1])
       (l2 ++ [sentence_bleu [text <$> doc1] (text <$> doc2) w2])
       (l3 ++ [sentence_bleu [text <$> doc1] (text <$> doc2) w3])
       (l4 ++ [sentence_bleu [text <$> doc1] (text <$> doc2) w4])).
Proof.
  unfold range. simpl.
  eapply score_orders_step; [reflexivity | reflexivity | reflexivity |].
  eapply score_orders_step; [reflexivity | reflexivity | reflexivity |].
  eapply score_orders_step; [reflexivity | reflexivity | reflexivity |].
  eapply score_orders_step; [reflexivity | reflexivity | reflexivity |].
  apply score_orders_done.
Qed.

Lemma score_pairs_run_scores_of pairs : ∀ l1 l2 l3 l4,
  score_pairs_run (nlp_graph nlp) (sentence_bleu_graph sentence_bleu) pairs
    (scores_of l1 l2 l3 l4)
    (scores_of (l1 ++ (pair_score nlp sentence_bleu w1 <$> pairs))
               (l2 ++ (pair_score nlp sentence_bleu w2 <$> pairs))
               (l3 ++ (pair_score nlp sentence_bleu w3 <$> pairs))
               (l4 ++ (pair_score nlp sentence_bleu w4 <$> pairs))).
Proof.
  induction pairs as [|[sent1 sent2] pairs IH]; intros l1 l2 l3 l4.
  - simpl. rewrite !app_nil_r. apply score_pairs_done.
  - eapply score_pairs_step;
      [reflexivity | reflexivity | apply score_orders_run_scores_of |].
    specialize (IH (l1 ++ [pair_score nlp sentence_bleu w1 (sent1, sent2)])
                   (l2 ++ [pair_score nlp sentence_bleu w2 (sent1, sent2)])
                   (l3 ++ [pair_score nlp sentence_bleu w3 (sent1, sent2)])
                   (l4 ++ [pair_score nlp sentence_bleu w4 (sent1, sent2)])).
    rewrite <- !app_assoc in IH. exact IH.
Qed.

Lemma bleu_run_bleu predict goal :
  bleu_run (nlp_graph nlp) (sentence_bleu_graph sentence_bleu) predict goal
    (bleu nlp sentence_bleu predict goal).
Proof.
  set (pairs := zip predict goal).
  exists (scores_of ([] ++ (pair_score nlp sentence_bleu w1 <$> pairs))
                    ([] ++ (pair_score nlp sentence_bleu w2 <$> pairs))
                    ([] ++ (pair_score nlp sentence_bleu w3 <$> pairs))
                    ([] ++ (pair_score nlp sentence_bleu w4 <$> pairs))).
  split.
  - apply (score_pairs_run_scores_of pairs [] [] [] []).
  - unfold bleu. change bleu_scores_init with (scores_of [] [] [] []).
    by rewrite for_each_score_pair.
Qed.

End BleuRunsOfFunctions.

(** C4, at two runs with the word tokenizer and the scorer of NLTK. *)
Lemma bleu_deterministic_witness :
  (∀ sentence doc doc',
     nlp_graph words_nlp sentence doc → nlp_graph words_nlp sentence doc' →
     doc = doc')
  ∧ (∀ refs hyp w score score',
       sentence_bleu_graph Nltk.sentence_bleu refs hyp w score →
       sentence_bleu_graph Nltk.sentence_bleu refs hyp w score' →
       score = score')
  ∧ bleu_run (nlp_graph words_nlp) (sentence_bleu_graph Nltk.sentence_bleu)
      ["ai la tac gia"; "ha noi"] ["ai la nguoi viet"; "ha noi"]
      (bleu words_nlp Nltk.sentence_bleu
         ["ai la tac gia"; "ha noi"] ["ai la nguoi viet"; "ha noi"])
  ∧ bleu_run (nlp_graph words_nlp) (sentence_bleu_graph Nltk.sentence_bleu)
      ["ai la tac gia"; "ha noi"] ["ai la nguoi viet"; "ha noi"]
      (mret (bleu_of_pairs words_nlp Nltk.sentence_bleu
               [("ai la tac gia", "ai la nguoi viet"); ("ha noi", "ha noi")]))
  ∧ bleu words_nlp Nltk.sentence_bleu
      ["ai la tac gia"; "ha noi"] ["ai la nguoi viet"; "ha noi"] =
    mret (bleu_of_pairs words_nlp Nltk.sentence_bleu
            [("ai la tac gia", "ai la nguoi viet"); ("ha noi", "ha noi")]).
Proof.
  assert (∀ sentence doc doc',
            nlp_graph words_nlp sentence doc →
            nlp_graph words_nlp sentence doc' → doc = doc') as Hnlp
    by (unfold nlp_graph; congruence).
  assert (∀ refs hyp w score score',
            sentence_bleu_graph Nltk.sentence_bleu refs hyp w score →
            sentence_bleu_graph Nltk.sentence_bleu refs hyp w score' →
            score = score') as Hsb
    by (unfold sentence_bleu_graph; congruence).
  pose proof (bleu_run_bleu words_nlp Nltk.sentence_bleu
    ["ai la tac gia"; "ha noi"] ["ai la nguoi viet"; "ha noi"]) as Hrun1.
  pose proof Hrun1 as Hrun.
  assert (bleu_run (nlp_graph words_nlp)
            (sentence_bleu_graph Nltk.sentence_bleu)
            ["ai la tac gia"; "ha noi"] ["ai la nguoi viet"; "ha noi"]
            (mret (bleu_of_pairs words_nlp Nltk.sentence_bleu
               [("ai la tac gia", "ai la nguoi viet"); ("ha noi", "ha noi")])))
    as Hrun2.
  { rewrite bleu_nonempty in Hrun by discriminate. exact Hrun. }
  split; [exact Hnlp|]. split; [exact Hsb|].
  split; [exact Hrun1|]. split; [exact Hrun2|].
  exact (bleu_deterministic _ _ Hnlp Hsb _ _ _ _ Hrun1 Hrun2).
Defined.

(** ** Formatting *)

Section FormattingFacts.

Variable ViTokenizer_tokenize : string → string.

Lemma append_assoc (a b c : string) : (a +:+ b) +:+ c = a +:+ (b +:+ c).
Proof.
  induction a as [|x a IH]; [reflexivity|].
  change (String x ((a +:+ b) +:+ c) = String x (a +:+ (b +:+ c))).
  by rewrite IH.
Qed.

(** C7: on an example that has the five fields, [formatting_func_qg]
    builds [input_seq] from [instruction_qg], the tokenized context and the
    tokenized answer, with the tokenized question as [output_seq];
    [formatting_func_ag] builds it from [instruction_ag], the tokenized
    context and the tokenized question, with the tokenized answer as
    [output_seq]. *)
Theorem formatting_funcs_fields (example : gmap string string)
    instruction_qg instruction_ag context question answer :
  example !! "instruction_qg" = Some instruction_qg →
  example !! "instruction_ag" = Some instruction_ag →
  example !! "context" = Some context →
  example !! "question" = Some question →
  example !! "answer" = Some answer →
  formatting_func_qg ViTokenizer_tokenize example =
    mret {[ "input_seq" :=
              prompt instruction_qg (ViTokenizer_tokenize context)
                "Answer" (ViTokenizer_tokenize answer);
            "output_seq" := ViTokenizer_tokenize question ]}
  ∧ formatting_func_ag ViTokenizer_tokenize example =
    mret {[ "input_seq" :=
              prompt instruction_ag (ViTokenizer_tokenize context)
                "Question" (ViTokenizer_tokenize question);
            "output_seq" := ViTokenizer_tokenize answer ]}.
Proof.
  intros Hqg Hag Hc Hq Ha.
  unfold formatting_func_qg, formatting_func_ag, getitem.
  rewrite Hqg, Hag, Hc, Hq, Ha. cbn [mbind mret py_bind py_ret].
  unfold prompt. rewrite !append_assoc.
  split; reflexivity.
Qed.

End FormattingFacts.

(** C7, at a row of the stand-in dataset, with the identity for pyvi's
    tokenizer. *)
Lemma formatting_funcs_fields_witness :
  Toy.example !! "instruction_qg" = Some "Hoi"
  ∧ Toy.example !! "instruction_ag" = Some "Dap"
  ∧ Toy.example !! "context" = Some "Ha Noi la thu do"
  ∧ Toy.example !! "question" = Some "Thu do la gi"
  ∧ Toy.example !! "answer" = Some "Ha Noi"
  ∧ formatting_func_qg (λ s, s) Toy.example =
      mret {[ "input_seq" := prompt "Hoi" "Ha Noi la thu do" "Answer" "Ha Noi";
              "output_seq" := "Thu do la gi" ]}
  ∧ formatting_func_ag (λ s, s) Toy.example =
      mret {[ "input_seq" :=
                prompt "Dap" "Ha Noi la thu do" "Question" "Thu do la gi";
              "output_seq" := "Ha Noi" ]}.
Proof.
  split; [reflexivity|]. split; [reflexivity|]. split; [reflexivity|].
  split; [reflexivity|]. split; [reflexivity|].
  apply (formatting_funcs_fields (λ s, s) Toy.example
           "Hoi" "Dap" "Ha Noi la thu do" "Thu do la gi" "Ha Noi");
    reflexivity.
Defined.

(** ** The pipeline *)

Lemma io_bind_inr {A B} (m : io A) (k : A → io B) w b w' :
  (m ≫= k) w = (inr b, w') →
  ∃ a w1, m w = (inr a, w1) ∧ k a w1 = (inr b, w').
Proof.
  unfold mbind, io_bind. destruct (m w) as [[e|a] w1]; [done|]. eauto.
Qed.

Lemma io_bind_run {A B} (m : io A) (k : A → io B) w a w1 :
  m w = (inr a, w1) → (m ≫= k) w = k a w1.
Proof. intros Hm. unfold mbind, io_bind. by rewrite Hm. Qed.

Lemma json_dump_inr path enc obj ascii n w u w' :
  json_dump path enc obj ascii n w = (inr u, w') →
  open_error w path = None
  ∧ w' = write_file path
           {| encoding := enc; ensure_ascii := ascii; indent := Some n;
              document := obj |} w.
Proof.
  unfold json_dump. destruct (open_error w path) as [e|]; [done|].
  intros Hdump. by injection Hdump as _ <-.
Qed.

Section PipelineFacts.

Variables Dataset Tokenizer Model Batch Ids : Type.
Variable ViTokenizer_tokenize : string → string.
Variable nlp : string → list Token.
Variable sentence_bleu : list (list string) → list string → weights → R.
Variable os_makedirs : string → io unit.
Variable AutoTokenizer_from_pretrained : string → io Tokenizer.
Variable AutoModelForSeq2SeqLM_from_pretrained : string → io Model.
Variable load_dataset : string → io (gmap string Dataset).
Variable Dataset_map :
  (gmap string string → py (gmap string string)) → nat → Dataset → io Dataset.
Variable Dataset_remove_columns : list string → Dataset → io Dataset.
Variable Dataset_column : Dataset → string → io value.
Variable Dataset_tokenize : Tokenizer → nat → nat → nat → Dataset → io Dataset.
Variable trainer_train :
  Config → Model → Tokenizer → Dataset → Dataset → io unit.
Variable DataLoader : Tokenizer → Model → Dataset → nat → io (list Batch).
Variable model_generate : Model → Batch → nat → io (list Ids).
Variable tokenizer_decode : Tokenizer → Ids → string.
Variable batch_labels : Tokenizer → Batch → list Ids.
Variable rouge_compute : value → value → io (list (string * R)).
Variable meteor_compute : value → value → io value.
Variable bertscore_compute : value → value → string → io value.
Variable np_array_mean : value → io R.

#[local] Abbreviation prepare_data' :=
  (prepare_data Dataset ViTokenizer_tokenize load_dataset Dataset_map
     Dataset_remove_columns).
#[local] Abbreviation compute_metric' :=
  (compute_metric Dataset Tokenizer Model Batch Ids DataLoader model_generate
     tokenizer_decode batch_labels).
#[local] Abbreviation preprocess_and_train' :=
  (preprocess_and_train Dataset Tokenizer Model Batch Ids Dataset_column
     Dataset_tokenize trainer_train DataLoader model_generate tokenizer_decode
     batch_labels).
#[local] Abbreviation main' :=
  (main Dataset Tokenizer Model Batch Ids ViTokenizer_tokenize nlp
     sentence_bleu os_makedirs AutoTokenizer_from_pretrained
     AutoModelForSeq2SeqLM_from_pretrained load_dataset Dataset_map
     Dataset_remove_columns Dataset_column Dataset_tokenize trainer_train
     DataLoader model_generate tokenizer_decode batch_labels rouge_compute
     meteor_compute bertscore_compute np_array_mean).

Lemma Config_new_task_ag name : task (Config_new name) = "ag".
Proof. unfold Config_new, post_init. by case_decide. Qed.

Lemma Config_new_checkpoint name :
  checkpoint (Config_new name) = "/kaggle/working/cp".
Proof. unfold Config_new, post_init. by case_decide. Qed.

Lemma prepare_data_not_qg conf w :
  task conf ≠ "qg" →
  prepare_data' conf w =
  prepare_data_with Dataset load_dataset Dataset_map Dataset_remove_columns
    (formatting_func_ag ViTokenizer_tokenize) conf w.
Proof.
  intros Htask. unfold prepare_data, prepare_data_with.
  destruct (decide (task conf = "qg")) as [Hqg|_]; [done|reflexivity].
Qed.

(** What [compute_metric] returns is the dictionary of the predictions and
    the references, and it is the document of the results file. *)
Lemma compute_metric_returns conf model tokenizer tokenized_test w outputs w' :
  compute_metric' conf model tokenizer tokenized_test w = (inr outputs, w') →
  ∃ predictions references,
    outputs = results_document predictions references
    ∧ files w' !! path_join (checkpoint conf) "results.json" =
      Some (json_file outputs).
Proof.
  unfold compute_metric. intros Hrun.
  apply io_bind_inr in Hrun as (dataloader & w1 & _ & Hrun).
  apply io_bind_inr in Hrun as ([predictions references] & w2 & _ & Hrun).
  apply io_bind_inr in Hrun as ([] & w3 & Hdump & Hrun).
  apply json_dump_inr in Hdump as [_ ->]. injection Hrun as <- <-.
  exists predictions, references. split; [reflexivity|].
  cbn [files write_file]. apply lookup_insert_eq.
Qed.

Lemma preprocess_and_train_returns conf model tokenizer train_set val_set
    test_set w outputs w' :
  preprocess_and_train' conf model tokenizer train_set val_set test_set w =
    (inr outputs, w') →
  ∃ predictions references,
    outputs = results_document predictions references
    ∧ files w' !! path_join (checkpoint conf) "results.json" =
      Some (json_file outputs).
Proof.
  unfold preprocess_and_train. intros Hrun.
  apply io_bind_inr in Hrun as (tokenized_train & w1 & _ & Hrun).
  apply io_bind_inr in Hrun as (tokenized_val & w2 & _ & Hrun).
  apply io_bind_inr in Hrun as (tokenized_test & w3 & _ & Hrun).
  apply io_bind_inr in Hrun as (output_seq & w4 & _ & Hrun).
  apply io_bind_inr in Hrun as ([] & w5 & _ & Hrun).
  apply io_bind_inr in Hrun as ([] & w6 & _ & Hrun).
  apply io_bind_inr in Hrun as (outputs' & w7 & Hmetric & Hrun).
  injection Hrun as <- <-.
  by apply compute_metric_returns in Hmetric.
Qed.

Lemma subscript_results_document predictions references :
  subscript (results_document predictions references) (KInt 0) =
  raise KeyError.
Proof. reflexivity. Qed.

(** C10: every invocation of [main] runs the answer-generation task.
    [Config(model_name)] leaves [task] at ['ag'] whatever the model name;
    [prepare_data] formats the three splits with [formatting_func_ag] for
    every task other than the string ['qg']; [main] hands no other function
    than [formatting_func_ag] to [Dataset.map] (a map that ignores its
    argument and formats for answer generation gives the same run); and
    once the directory, the tokenizer and the model are there, the outcome
    of [main] is that of the answer-generation formatting followed by the
    training on the splits it produced. *)
Theorem main_runs_answer_generation name :
  task (Config_new name) = "ag"
  ∧ (∀ conf w, task conf ≠ "qg" →
       prepare_data' conf w =
       prepare_data_with Dataset load_dataset Dataset_map
         Dataset_remove_columns (formatting_func_ag ViTokenizer_tokenize)
         conf w)
  ∧ (∀ w, main' name w =
          main Dataset Tokenizer Model Batch Ids ViTokenizer_tokenize nlp
            sentence_bleu os_makedirs AutoTokenizer_from_pretrained
            AutoModelForSeq2SeqLM_from_pretrained load_dataset
            (λ _, Dataset_map (formatting_func_ag ViTokenizer_tokenize))
            Dataset_remove_columns Dataset_column Dataset_tokenize
            trainer_train DataLoader model_generate tokenizer_decode
            batch_labels rouge_compute meteor_compute bertscore_compute
            np_array_mean name w)
  ∧ (∀ w0 w1 w2 w3 tokenizer model,
       os_makedirs (checkpoint (Config_new name)) w0 = (inr (), w1) →
       AutoTokenizer_from_pretrained
         (pretrained_model_name_or_path (Config_new name)) w1 =
         (inr tokenizer, w2) →
       AutoModelForSeq2SeqLM_from_pretrained
         (pretrained_model_name_or_path (Config_new name)) w2 =
         (inr model, w3) →
       (∀ e w4,
          prepare_data_with Dataset load_dataset Dataset_map
            Dataset_remove_columns (formatting_func_ag ViTokenizer_tokenize)
            (Config_new name) w3 = (raise e, w4) →
          main' name w0 = (raise e, w4))
       ∧ (∀ train_dataset dev_dataset test_dataset w4 outcome w5,
            prepare_data_with Dataset load_dataset Dataset_map
              Dataset_remove_columns
              (formatting_func_ag ViTokenizer_tokenize) (Config_new name)
              w3 = (inr (train_dataset, dev_dataset, test_dataset), w4) →
            preprocess_and_train' (Config_new name) model tokenizer
              train_dataset dev_dataset test_dataset w4 = (outcome, w5) →
            main' name w0 =
            (match outcome with
             | inl e => raise e
             | inr _ => raise KeyError
             end, w5))).
Proof.
  split; [apply Config_new_task_ag|]. split.
  { intros conf w. apply prepare_data_not_qg. }
  split.
  { intros w. unfold main, prepare_data. cbv zeta.
    destruct (decide (task (Config_new name) = "qg")) as [Hqg|_];
      [|reflexivity].
    by rewrite Config_new_task_ag in Hqg. }
  intros w0 w1 w2 w3 tokenizer model Hdirs Htok Hmodel.
  assert (task (Config_new name) ≠ "qg") as Htask
    by (by rewrite Config_new_task_ag).
  split.
  - intros e w4 Hdata. rewrite <- prepare_data_not_qg in Hdata by done.
    unfold main. cbv zeta.
    rewrite (io_bind_run _ _ _ _ _ Hdirs).
    rewrite (io_bind_run _ _ _ _ _ Htok).
    rewrite (io_bind_run _ _ _ _ _ Hmodel).
    unfold mbind at 1, io_bind at 1. by rewrite Hdata.
  - intros train_dataset dev_dataset test_dataset w4 outcome w5 Hdata Htrain.
    rewrite <- prepare_data_not_qg in Hdata by done.
    unfold main. cbv zeta.
    rewrite (io_bind_run _ _ _ _ _ Hdirs).
    rewrite (io_bind_run _ _ _ _ _ Htok).
    rewrite (io_bind_run _ _ _ _ _ Hmodel).
    rewrite (io_bind_run _ _ _ _ _ Hdata).
    destruct outcome as [e|outputs].
    + unfold mbind at 1, io_bind at 1. by rewrite Htrain.
    + rewrite (io_bind_run _ _ _ _ _ Htrain).
      apply preprocess_and_train_returns in Htrain
        as (predictions & references & -> & _).
      reflexivity.
Qed.

(** Whatever the libraries do, [main] does not return: it ends with an
    exception of a library or with the [KeyError] of [outputs[0]]. *)
Lemma main_does_not_return name w u w' : main' name w ≠ (inr u, w').
Proof.
  unfold main. intros Hrun.
  apply io_bind_inr in Hrun as ([] & w1 & _ & Hrun).
  apply io_bind_inr in Hrun as (tokenizer & w2 & _ & Hrun).
  apply io_bind_inr in Hrun as (model & w3 & _ & Hrun).
  apply io_bind_inr in Hrun as ([[train dev] test] & w4 & _ & Hrun).
  apply io_bind_inr in Hrun as (outputs & w5 & Htrain & Hrun).
  apply io_bind_inr in Hrun as (first & w6 & Hfirst & _).
  apply preprocess_and_train_returns in Htrain
    as (predictions & references & -> & _).
  discriminate Hfirst.
Qed.

(** C8: in every run of [main] in which [preprocess_and_train] returns,
    what it returns is the dictionary with the keys ['predictions'] and
    ['references'], [outputs[0]] raises [KeyError], and [main] ends with this
    [KeyError] in the world that [preprocess_and_train] left: nothing is
    printed, read, scored or written after it. *)
Theorem main_raises_KeyError name w0 w1 w2 w3 w4 w5 tokenizer model
    train_dataset dev_dataset test_dataset outputs :
  let conf := Config_new name in
  os_makedirs (checkpoint conf) w0 = (inr (), w1) →
  AutoTokenizer_from_pretrained (pretrained_model_name_or_path conf) w1 =
    (inr tokenizer, w2) →
  AutoModelForSeq2SeqLM_from_pretrained (pretrained_model_name_or_path conf)
    w2 = (inr model, w3) →
  prepare_data' conf w3 =
    (inr (train_dataset, dev_dataset, test_dataset), w4) →
  preprocess_and_train' conf model tokenizer train_dataset dev_dataset
    test_dataset w4 = (inr outputs, w5) →
  (∃ predictions references,
     outputs = results_document predictions references)
  ∧ subscript outputs (KInt 0) = raise KeyError
  ∧ main' name w0 = (raise KeyError, w5).
Proof.
  intros conf Hdirs Htok Hmodel Hdata Htrain.
  destruct (preprocess_and_train_returns _ _ _ _ _ _ _ _ _ Htrain)
    as (predictions & references & -> & _).
  split; [by eauto|]. split; [apply subscript_results_document|].
  unfold main. fold conf.
  rewrite (io_bind_run _ _ _ _ _ Hdirs).
  rewrite (io_bind_run _ _ _ _ _ Htok).
  rewrite (io_bind_run _ _ _ _ _ Hmodel).
  rewrite (io_bind_run _ _ _ _ _ Hdata).
  rewrite (io_bind_run _ _ _ _ _ Htrain).
  reflexivity.
Qed.

End PipelineFacts.

(** C10, on the stand-in: the task ['QG'], which is not the string
    ['qg'], is formatted for answer generation, and [main] ends as the
    training on the splits formatted for answer generation ends. *)
Lemma main_runs_answer_generation_witness :
  task (Config_new_task "vit5" "QG") ≠ "qg"
  ∧ prepare_data Toy.Dataset (λ s, s) Toy.load_dataset Toy.Dataset_map
      Toy.Dataset_remove_columns (Config_new_task "vit5" "QG") Toy.world =
    prepare_data_with Toy.Dataset Toy.load_dataset Toy.Dataset_map
      Toy.Dataset_remove_columns (formatting_func_ag (λ s, s))
      (Config_new_task "vit5" "QG") Toy.world
  ∧ prepare_data_with Toy.Dataset Toy.load_dataset Toy.Dataset_map
      Toy.Dataset_remove_columns (formatting_func_ag (λ s, s))
      (Config_new "vit5") Toy.world =
    (inr (Toy.formatted, Toy.formatted, Toy.formatted), Toy.world)
  ∧ preprocess_and_train Toy.Dataset unit unit Toy.Dataset string
      Toy.Dataset_column Toy.Dataset_tokenize Toy.trainer_train
      Toy.DataLoader Toy.model_generate Toy.tokenizer_decode
      Toy.batch_labels (Config_new "vit5") () () Toy.formatted
      Toy.formatted Toy.formatted Toy.world =
    (inr Toy.outputs, Toy.world_trained)
  ∧ toy_main "vit5" Toy.world = (raise KeyError, Toy.world_trained).
Proof.
  assert (task (Config_new_task "vit5" "QG") ≠ "qg") as Htask
    by discriminate.
  assert (prepare_data_with Toy.Dataset Toy.load_dataset Toy.Dataset_map
            Toy.Dataset_remove_columns (formatting_func_ag (λ s, s))
            (Config_new "vit5") Toy.world =
          (inr (Toy.formatted, Toy.formatted, Toy.formatted), Toy.world))
    as Hdata by reflexivity.
  assert (preprocess_and_train Toy.Dataset unit unit Toy.Dataset string
            Toy.Dataset_column Toy.Dataset_tokenize Toy.trainer_train
            Toy.DataLoader Toy.model_generate Toy.tokenizer_decode
            Toy.batch_labels (Config_new "vit5") () () Toy.formatted
            Toy.formatted Toy.formatted Toy.world =
            (inr Toy.outputs, Toy.world_trained)) as Htrain by reflexivity.
  destruct (main_runs_answer_generation Toy.Dataset unit unit Toy.Dataset
              string (λ s, s) words_nlp Nltk.sentence_bleu Toy.os_makedirs
              Toy.from_pretrained Toy.from_pretrained Toy.load_dataset
              Toy.Dataset_map Toy.Dataset_remove_columns Toy.Dataset_column
              Toy.Dataset_tokenize Toy.trainer_train Toy.DataLoader
              Toy.model_generate Toy.tokenizer_decode Toy.batch_labels
              Toy.rouge_compute Toy.meteor_compute Toy.bertscore_compute
              Toy.np_array_mean "vit5")
    as (_ & Hag & _ & Hmain).
  destruct (Hmain Toy.world Toy.world Toy.world Toy.world () ()
              eq_refl eq_refl eq_refl) as [_ Hruns].
  split; [exact Htask|].
  split; [exact (Hag _ Toy.world Htask)|].
  split; [exact Hdata|]. split; [exact Htrain|].
  exact (Hruns _ _ _ _ _ _ Hdata Htrain).
Defined.

(** C8, on the stand-in: [main] ends with [KeyError] in the world that
    training left. *)
Lemma main_raises_KeyError_witness :
  Toy.os_makedirs (checkpoint (Config_new "vit5")) Toy.world =
    (inr (), Toy.world)
  ∧ Toy.from_pretrained
      (pretrained_model_name_or_path (Config_new "vit5")) Toy.world =
    (inr (), Toy.world)
  ∧ prepare_data Toy.Dataset (λ s, s) Toy.load_dataset Toy.Dataset_map
      Toy.Dataset_remove_columns (Config_new "vit5") Toy.world =
    (inr (Toy.formatted, Toy.formatted, Toy.formatted), Toy.world)
  ∧ preprocess_and_train Toy.Dataset unit unit Toy.Dataset string
      Toy.Dataset_column Toy.Dataset_tokenize Toy.trainer_train
      Toy.DataLoader Toy.model_generate Toy.tokenizer_decode
      Toy.batch_labels (Config_new "vit5") () () Toy.formatted
      Toy.formatted Toy.formatted Toy.world =
    (inr Toy.outputs, Toy.world_trained)
  ∧ subscript Toy.outputs (KInt 0) = raise KeyError
  ∧ toy_main "vit5" Toy.world = (raise KeyError, Toy.world_trained).
Proof.
  assert (Toy.os_makedirs (checkpoint (Config_new "vit5")) Toy.world =
            (inr (), Toy.world)) as Hdirs by reflexivity.
  assert (Toy.from_pretrained
            (pretrained_model_name_or_path (Config_new "vit5")) Toy.world =
            (inr (), Toy.world)) as Hload by reflexivity.
  assert (prepare_data Toy.Dataset (λ s, s) Toy.load_dataset Toy.Dataset_map
            Toy.Dataset_remove_columns (Config_new "vit5") Toy.world =
            (inr (Toy.formatted, Toy.formatted, Toy.formatted), Toy.world))
    as Hdata by reflexivity.
  assert (preprocess_and_train Toy.Dataset unit unit Toy.Dataset string
            Toy.Dataset_column Toy.Dataset_tokenize Toy.trainer_train
            Toy.DataLoader Toy.model_generate Toy.tokenizer_decode
            Toy.batch_labels (Config_new "vit5") () () Toy.formatted
            Toy.formatted Toy.formatted Toy.world =
            (inr Toy.outputs, Toy.world_trained)) as Htrain by reflexivity.
  split; [exact Hdirs|]. split; [exact Hload|]. split; [exact Hdata|].
  split; [exact Htrain|].
  destruct (main_raises_KeyError Toy.Dataset unit unit Toy.Dataset string
              (λ s, s) words_nlp Nltk.sentence_bleu Toy.os_makedirs
              Toy.from_pretrained Toy.from_pretrained Toy.load_dataset
              Toy.Dataset_map Toy.Dataset_remove_columns Toy.Dataset_column
              Toy.Dataset_tokenize Toy.trainer_train Toy.DataLoader
              Toy.model_generate Toy.tokenizer_decode Toy.batch_labels
              Toy.rouge_compute Toy.meteor_compute Toy.bertscore_compute
              Toy.np_array_mean "vit5" _ _ _ _ _ _ _ _ _ _ _ _
              Hdirs Hload Hload Hdata Htrain)
    as (_ & Hkey & Hmain).
  split; [exact Hkey | exact Hmain].
Defined.

(** C6, at the failing input: on the stand-in, [main] leaves the results
    file of [compute_metric], with the keys [predictions] and [references],
    and ends with [KeyError] before any scores file is written. *)
Theorem toy_main_writes_no_scores_file :
  toy_main "vit5" Toy.world = (raise KeyError, Toy.world_trained)
  ∧ files Toy.world_trained !! "/kaggle/working/cp/results.json" =
    Some (json_file
            (VDict [(KStr "predictions",
                     VList [VStr (prompt "Dap" "Ha Noi la thu do" "Question"
                                    "Thu do la gi")]);
                    (KStr "references", VList [VStr "Ha Noi"])]))
  ∧ files Toy.world_trained !! "/kaggle/working/cp/scores.json" = None.
Proof. repeat split; reflexivity. Qed.

(** * Part III: further properties of the code *)

(** ** [Config] *)

(** X1: [Config(name)] names the bartpho checkpoint when [name] is
    ['bartpho'] and the ViT5 checkpoint for every other name; the name is
    kept, and the task, the dataset, the checkpoint directory, the length
    caps and the batch sizes are those of the defaults whatever the name. *)
Theorem Config_new_fields name :
  pretrained_model_name_or_path (Config_new name) =
    (if decide (name = "bartpho") then "vinai/bartpho-word-base"
     else "VietAI/vit5-base")
  ∧ model_name (Config_new name) = name
  ∧ dataset_name (Config_new name) = "vinewsqa"
  ∧ checkpoint (Config_new name) = "/kaggle/working/cp"
  ∧ task (Config_new name) = "ag"
  ∧ src_len (Config_new name) = 1024
  ∧ tgt_len (Config_new name) = 256
  ∧ per_device_train_batch_size (Config_new name) = 4
  ∧ per_device_eval_batch_size (Config_new name) = 16
  ∧ num_epochs (Config_new name) = 10.
Proof.
  unfold Config_new, post_init. cbn [model_name].
  case_decide; repeat split; reflexivity.
Qed.

(** ** Formatting: missing fields and what the prompt reads *)

Section FormattingErrors.

Variable ViTokenizer_tokenize : string → string.

#[local] Abbreviation qg := (formatting_func_qg ViTokenizer_tokenize).
#[local] Abbreviation ag := (formatting_func_ag ViTokenizer_tokenize).

(** X2: [formatting_func_qg] raises [KeyError] exactly when the example
    lacks one of the four fields it reads (it does not read
    [instruction_ag]), [formatting_func_ag] exactly when it lacks one of its
    four (it does not read [instruction_qg]); neither raises anything else,
    and what they return has the two keys [input_seq] and [output_seq]. *)
Theorem formatting_funcs_KeyError (example : gmap string string) :
  (qg example = raise KeyError ↔
     example !! "instruction_qg" = None ∨ example !! "context" = None
     ∨ example !! "answer" = None ∨ example !! "question" = None)
  ∧ (ag example = raise KeyError ↔
       example !! "instruction_ag" = None ∨ example !! "context" = None
       ∨ example !! "question" = None ∨ example !! "answer" = None)
  ∧ (∀ e, qg example = raise e ∨ ag example = raise e → e = KeyError)
  ∧ (∀ out, qg example = mret out ∨ ag example = mret out →
       dom out = {["input_seq"; "output_seq"]}).
Proof.
  unfold formatting_func_qg, formatting_func_ag, getitem.
  destruct (example !! "instruction_qg") as [iqg|];
    destruct (example !! "instruction_ag") as [iag|];
    destruct (example !! "context") as [c|];
    destruct (example !! "question") as [q|];
    destruct (example !! "answer") as [a|];
    cbn [mbind mret py_bind py_ret raise]; unfold mret, py_ret, raise;
    (split; [intuition congruence|]); (split; [intuition congruence|]);
    (split; [intros e [He|He]; congruence|]);
    intros out [Hout|Hout]; try discriminate;
    injection Hout as <-; rewrite !dom_insert_L, dom_empty_L; set_solver.
Qed.

(** X3: the prompt does not read the target. Replacing [question] in an
    example that [formatting_func_qg] formats leaves [input_seq] as it was
    and makes [output_seq] the tokenized new question; replacing [answer]
    does the same for [formatting_func_ag]. *)
Theorem formatting_funcs_target (example : gmap string string) target :
  (∀ out, qg example = mret out →
     ∃ out', qg (<["question" := target]> example) = mret out'
             ∧ out' !! "input_seq" = out !! "input_seq"
             ∧ out' !! "output_seq" = Some (ViTokenizer_tokenize target))
  ∧ (∀ out, ag example = mret out →
       ∃ out', ag (<["answer" := target]> example) = mret out'
               ∧ out' !! "input_seq" = out !! "input_seq"
               ∧ out' !! "output_seq" = Some (ViTokenizer_tokenize target)).
Proof.
  unfold formatting_func_qg, formatting_func_ag, getitem.
  rewrite !lookup_insert_eq. rewrite !lookup_insert_ne by done.
  destruct (example !! "instruction_qg") as [iqg|];
    destruct (example !! "instruction_ag") as [iag|];
    destruct (example !! "context") as [c|];
    destruct (example !! "question") as [q|];
    destruct (example !! "answer") as [a|];
    cbn [mbind mret py_bind py_ret raise]; unfold mret, py_ret, raise;
    split; intros out Hout; try discriminate;
    injection Hout as <-; eexists; split; try reflexivity;
    split; reflexivity.
Qed.

End FormattingErrors.

(** X3, at the row of the stand-in dataset. *)
Lemma formatting_funcs_target_witness :
  formatting_func_qg (λ s, s) Toy.example =
    mret {[ "input_seq" := prompt "Hoi" "Ha Noi la thu do" "Answer" "Ha Noi";
            "output_seq" := "Thu do la gi" ]}
  ∧ ∃ out', formatting_func_qg (λ s, s)
              (<["question" := "Ha Noi o dau"]> Toy.example) = mret out'
            ∧ out' !! "input_seq" =
              Some (prompt "Hoi" "Ha Noi la thu do" "Answer" "Ha Noi")
            ∧ out' !! "output_seq" = Some "Ha Noi o dau".
Proof.
  assert (formatting_func_qg (λ s, s) Toy.example =
            mret {[ "input_seq" :=
                      prompt "Hoi" "Ha Noi la thu do" "Answer" "Ha Noi";
                    "output_seq" := "Thu do la gi" ]}) as Hout
    by reflexivity.
  split; [exact Hout|].
  destruct (formatting_funcs_target (λ s, s) Toy.example "Ha Noi o dau")
    as [Hqg _].
  exact (Hqg _ Hout).
Defined.

(** ** [bleu]: exceptions, keys, the score lists, concatenation *)

Lemma sum_app (l1 l2 : list R) : sum (l1 ++ l2) = (sum l1 + sum l2)%R.
Proof.
  induction l1 as [|x l1 IH]; simpl.
  - unfold sum at 2. simpl. lra.
  - rewrite !sum_cons, IH. lra.
Qed.

Section BleuFurther.

Variable nlp : string → list Token.
Variable sentence_bleu : list (list string) → list string → weights → R.

Lemma bleu_returns_inv predict goal d :
  bleu nlp sentence_bleu predict goal = mret d →
  zip predict goal ≠ []
  ∧ d = bleu_of_pairs nlp sentence_bleu (zip predict goal).
Proof.
  rewrite bleu_unfold. destruct (zip predict goal) as [|pair pairs];
    [done|].
  intros Hd. injection Hd as <-. done.
Qed.

(** X4: [bleu] raises exactly when one of the two lists is empty, and what
    it raises is [ZeroDivisionError]: the lookups [bleu_scores[n]] and
    [ws[n - 1]] of the loops never fail. *)
Theorem bleu_raises_iff predict goal :
  ((∃ e, bleu nlp sentence_bleu predict goal = raise e) ↔
     predict = [] ∨ goal = [])
  ∧ (∀ e, bleu nlp sentence_bleu predict goal = raise e →
       e = ZeroDivisionError).
Proof.
  rewrite bleu_unfold. unfold raise, mret, py_ret.
  destruct predict as [|p predict], goal as [|g goal]; simpl;
    (split; [split; [intros [e He]; try discriminate He; tauto
                    | intros [?|?]; try discriminate; eauto]
            | intros e He; congruence]).
Qed.

(** X5: whenever [bleu] returns, the dictionary has exactly the four keys
    [BLEU1], [BLEU2], [BLEU3] and [BLEU4]. *)
Theorem bleu_keys predict goal d :
  bleu nlp sentence_bleu predict goal = mret d →
  dom d = {["BLEU1"; "BLEU2"; "BLEU3"; "BLEU4"]}.
Proof.
  intros Hd. apply bleu_returns_inv in Hd as [_ ->].
  unfold bleu_of_pairs, averages.
  rewrite !dom_insert_L, dom_empty_L. set_solver.
Qed.

(** X6: the first loop of [bleu] never raises and keeps the four score
    lists aligned: after the pairs are scored, [bleu_scores] has the keys
    1 to 4 and each list holds one score per pair. *)
Theorem score_pairs_aligned (pairs : list (string * string)) :
  ∃ bleu_scores : gmap nat (list R),
    for_each pairs (score_pair nlp sentence_bleu) bleu_scores_init =
      mret bleu_scores
    ∧ dom bleu_scores = {[1; 2; 3; 4]}
    ∧ ∀ n l, bleu_scores !! n = Some l → length l = length pairs.
Proof.
  change bleu_scores_init with (scores_of [] [] [] []).
  rewrite for_each_score_pair. eexists. split; [reflexivity|].
  unfold scores_of. split.
  - rewrite !dom_insert_L, dom_empty_L. set_solver.
  - intros n l Hl.
    repeat (rewrite lookup_insert in Hl; case_decide;
            [injection Hl as <-; simpl; by rewrite length_fmap|]).
    by rewrite lookup_empty in Hl.
Qed.

(** X7: scores of concatenated lists. When the first prediction list is as
    long as its reference list, each BLEU-n of the concatenation is the
    mean of the BLEU-n of the two parts weighted by their numbers of
    pairs (in real arithmetic). *)
Theorem bleu_concat predict1 goal1 predict2 goal2 d1 d2 :
  length predict1 = length goal1 →
  bleu nlp sentence_bleu predict1 goal1 = mret d1 →
  bleu nlp sentence_bleu predict2 goal2 = mret d2 →
  ∃ d, bleu nlp sentence_bleu (predict1 ++ predict2) (goal1 ++ goal2) = mret d
       ∧ ∀ n, n ∈ range 1 5 →
           ∃ v1 v2 v,
             d1 !! bleu_key n = Some v1 ∧ d2 !! bleu_key n = Some v2
             ∧ d !! bleu_key n = Some v
             ∧ (INR (length predict1 + length predict2 `min` length goal2)
                * v =
                INR (length predict1) * v1
                + INR (length predict2 `min` length goal2) * v2)%R.
Proof.
  intros Hlen Hd1 Hd2.
  apply bleu_returns_inv in Hd1 as [Hz1 ->].
  apply bleu_returns_inv in Hd2 as [Hz2 ->].
  assert (zip (predict1 ++ predict2) (goal1 ++ goal2) =
          zip predict1 goal1 ++ zip predict2 goal2) as Hzip
    by (by apply zip_with_app).
  exists (bleu_of_pairs nlp sentence_bleu
            (zip predict1 goal1 ++ zip predict2 goal2)).
  split.
  - rewrite bleu_unfold, Hzip.
    destruct (zip predict1 goal1 ++ zip predict2 goal2) eqn:Happ;
      [|done].
    by apply app_eq_nil in Happ as [? _].
  - intros n Hn. destruct (range_weight_schedule n Hn) as [w Hw].
    eexists _, _, _.
    split; [by apply bleu_of_pairs_lookup|].
    split; [by apply bleu_of_pairs_lookup|].
    split; [by apply bleu_of_pairs_lookup|].
    unfold mean. rewrite fmap_app, sum_app, length_app, !length_fmap.
    rewrite !length_zip_min, <- Hlen, Nat.min_id.
    assert (length predict1 ≠ 0) as Hk1.
    { intros H0. apply Hz1. destruct predict1; [done|discriminate H0]. }
    assert (length predict2 `min` length goal2 ≠ 0) as Hk2.
    { rewrite <- length_zip_min. intros H0. apply Hz2.
      by apply length_zero_iff_nil. }
    rewrite plus_INR.
    assert (0 < INR (length predict1))%R by (apply lt_0_INR; lia).
    assert (0 < INR (length predict2 `min` length goal2))%R
      by (apply lt_0_INR; lia).
    field. lra.
Qed.

End BleuFurther.

(** X5, at two pairs scored by NLTK. *)
Lemma bleu_keys_witness :
  bleu words_nlp Nltk.sentence_bleu ["ai la tac gia"; "ha noi"]
    ["ai la nguoi viet"; "ha noi"] =
  mret (bleu_of_pairs words_nlp Nltk.sentence_bleu
          [("ai la tac gia", "ai la nguoi viet"); ("ha noi", "ha noi")])
  ∧ dom (bleu_of_pairs words_nlp Nltk.sentence_bleu
           [("ai la tac gia", "ai la nguoi viet"); ("ha noi", "ha noi")]) =
    {["BLEU1"; "BLEU2"; "BLEU3"; "BLEU4"]}.
Proof.
  assert (bleu words_nlp Nltk.sentence_bleu ["ai la tac gia"; "ha noi"]
            ["ai la nguoi viet"; "ha noi"] =
          mret (bleu_of_pairs words_nlp Nltk.sentence_bleu
                  [("ai la tac gia", "ai la nguoi viet");
                   ("ha noi", "ha noi")])) as Hd
    by (by rewrite bleu_nonempty).
  split; [exact Hd|].
  exact (bleu_keys words_nlp Nltk.sentence_bleu _ _ _ Hd).
Defined.

(** X7, at one pair followed by one pair and a surplus prediction. *)
Lemma bleu_concat_witness :
  length ["ai la tac gia"] = length ["ai la nguoi viet"]
  ∧ bleu words_nlp Nltk.sentence_bleu ["ai la tac gia"]
      ["ai la nguoi viet"] =
    mret (bleu_of_pairs words_nlp Nltk.sentence_bleu
            [("ai la tac gia", "ai la nguoi viet")])
  ∧ bleu words_nlp Nltk.sentence_bleu ["ha noi"; "hue"] ["ha noi"] =
    mret (bleu_of_pairs words_nlp Nltk.sentence_bleu [("ha noi", "ha noi")])
  ∧ ∃ d, bleu words_nlp Nltk.sentence_bleu
           (["ai la tac gia"] ++ ["ha noi"; "hue"])
           (["ai la nguoi viet"] ++ ["ha noi"]) = mret d
         ∧ ∀ n, n ∈ range 1 5 →
             ∃ v1 v2 v,
               bleu_of_pairs words_nlp Nltk.sentence_bleu
                 [("ai la tac gia", "ai la nguoi viet")] !! bleu_key n
               = Some v1
               ∧ bleu_of_pairs words_nlp Nltk.sentence_bleu
                   [("ha noi", "ha noi")] !! bleu_key n = Some v2
               ∧ d !! bleu_key n = Some v
               ∧ (INR (length ["ai la tac gia"]
                       + length ["ha noi"; "hue"] `min` length ["ha noi"])
                  * v =
                  INR (length ["ai la tac gia"]) * v1
                  + INR (length ["ha noi"; "hue"] `min` length ["ha noi"])
                    * v2)%R.
Proof.
  assert (bleu words_nlp Nltk.sentence_bleu ["ai la tac gia"]
            ["ai la nguoi viet"] =
          mret (bleu_of_pairs words_nlp Nltk.sentence_bleu
                  [("ai la tac gia", "ai la nguoi viet")])) as Hd1
    by (by rewrite bleu_nonempty).
  assert (bleu words_nlp Nltk.sentence_bleu ["ha noi"; "hue"] ["ha noi"] =
          mret (bleu_of_pairs words_nlp Nltk.sentence_bleu
                  [("ha noi", "ha noi")])) as Hd2
    by (by rewrite bleu_nonempty).
  split; [reflexivity|]. split; [exact Hd1|]. split; [exact Hd2|].
  exact (bleu_concat words_nlp Nltk.sentence_bleu ["ai la tac gia"]
           ["ai la nguoi viet"] ["ha noi"; "hue"] ["ha noi"] _ _
           eq_refl Hd1 Hd2).
Defined.

(** ** The pipeline: loops, files and failures *)

Lemma for_each_io_invariant {A S} (P : S → Prop) (xs : list A)
    (body : S → A → io S) :
  (∀ s x w s1 w1, x ∈ xs → P s → body s x w = (inr s1, w1) → P s1) →
  ∀ s w s' w', P s → for_each xs body s w = (inr s', w') → P s'.
Proof.
  induction xs as [|x xs IH]; intros Hbody s w s' w' Hs Hrun.
  - injection Hrun as <- _. exact Hs.
  - cbn [for_each] in Hrun.
    apply io_bind_inr in Hrun as (s1 & w1 & Hx & Hrun).
    eapply IH; [|eapply Hbody; [left|exact Hs|exact Hx]|exact Hrun].
    intros s0 y w0 s2 w2 Hy. apply Hbody. by right.
Qed.

Lemma as_strings_strings_value (l : list string) :
  as_strings (strings_value l) = mret l.
Proof.
  unfold as_strings, strings_value.
  induction l as [|x l IH]; [reflexivity|].
  cbn. cbn in IH. by rewrite IH.
Qed.

Section PipelineFurther.

Variables Dataset Tokenizer Model Batch Ids : Type.
Variable ViTokenizer_tokenize : string → string.
Variable load_dataset : string → io (gmap string Dataset).
Variable Dataset_map :
  (gmap string string → py (gmap string string)) → nat → Dataset → io Dataset.
Variable Dataset_remove_columns : list string → Dataset → io Dataset.
Variable Dataset_column : Dataset → string → io value.
Variable Dataset_tokenize : Tokenizer → nat → nat → nat → Dataset → io Dataset.
Variable trainer_train :
  Config → Model → Tokenizer → Dataset → Dataset → io unit.
Variable DataLoader : Tokenizer → Model → Dataset → nat → io (list Batch).
Variable model_generate : Model → Batch → nat → io (list Ids).
Variable tokenizer_decode : Tokenizer → Ids → string.
Variable batch_labels : Tokenizer → Batch → list Ids.

#[local] Abbreviation prepare_data'' :=
  (prepare_data Dataset ViTokenizer_tokenize load_dataset Dataset_map
     Dataset_remove_columns).
#[local] Abbreviation compute_metric'' :=
  (compute_metric Dataset Tokenizer Model Batch Ids DataLoader model_generate
     tokenizer_decode batch_labels).
#[local] Abbreviation preprocess_and_train'' :=
  (preprocess_and_train Dataset Tokenizer Model Batch Ids Dataset_column
     Dataset_tokenize trainer_train DataLoader model_generate tokenizer_decode
     batch_labels).

Lemma compute_metric_inv conf model tokenizer tokenized_test w outputs w' :
  compute_metric'' conf model tokenizer tokenized_test w = (inr outputs, w') →
  ∃ dataloader w0 predictions references w1,
    DataLoader tokenizer model tokenized_test
      (per_device_eval_batch_size conf) w = (inr dataloader, w0)
    ∧ for_each dataloader
        (generate_batch Tokenizer Model Batch Ids model_generate
           tokenizer_decode batch_labels conf model tokenizer) ([], []) w0 =
      (inr (predictions, references), w1)
    ∧ outputs = results_document predictions references
    ∧ open_error w1 (path_join (checkpoint conf) "results.json") = None
    ∧ w' = write_file (path_join (checkpoint conf) "results.json")
             (json_file outputs) w1.
Proof.
  unfold compute_metric. intros Hrun.
  apply io_bind_inr in Hrun as (dataloader & w0 & Hload & Hrun).
  apply io_bind_inr in Hrun as ([predictions references] & w1 & Hloop & Hrun).
  apply io_bind_inr in Hrun as ([] & w2 & Hdump & Hrun).
  apply json_dump_inr in Hdump as [Hopen ->]. injection Hrun as <-.
  by exists dataloader, w0, predictions, references, w1.
Qed.

(** X8: when the model generates, for each batch of the loader, as many
    sequences as the batch has label rows, [compute_metric] returns as many
    predictions as references. *)
Theorem compute_metric_equal_lengths conf model tokenizer tokenized_test
    w dataloader w0 outputs w' :
  DataLoader tokenizer model tokenized_test
    (per_device_eval_batch_size conf) w = (inr dataloader, w0) →
  (∀ batch w1 outs w2, batch ∈ dataloader →
     model_generate model batch (tgt_len conf) w1 = (inr outs, w2) →
     length outs = length (batch_labels tokenizer batch)) →
  compute_metric'' conf model tokenizer tokenized_test w = (inr outputs, w') →
  ∃ predictions references,
    outputs = results_document predictions references
    ∧ length predictions = length references.
Proof.
  intros Hload Hgen Hrun.
  apply compute_metric_inv in Hrun
    as (dataloader' & w0' & predictions & references & w1 & Hload' & Hloop
        & -> & _ & _).
  rewrite Hload in Hload'. injection Hload' as <- <-.
  exists predictions, references. split; [reflexivity|].
  apply (for_each_io_invariant
           (λ acc : list string * list string, length acc.1 = length acc.2)
           dataloader _) in Hloop; [exact Hloop| |reflexivity].
  intros [preds refs] batch w2 [preds' refs'] w3 Hbatch Hacc Hbody.
  unfold generate_batch in Hbody.
  apply io_bind_inr in Hbody as (outs & w4 & Hmodel & Hret).
  injection Hret as <- <- _. cbn [fst snd] in *.
  rewrite !length_app, !length_fmap, Hacc.
  by rewrite (Hgen _ _ _ _ Hbatch Hmodel).
Qed.

(** X9: a loader without batches. [compute_metric] collects two empty
    lists; when the results file can be opened for writing it writes the
    dictionary of the two empty lists and returns it, and otherwise it ends
    with the exception of [open] and writes nothing. *)
Theorem compute_metric_no_batch conf model tokenizer tokenized_test w w0 :
  DataLoader tokenizer model tokenized_test
    (per_device_eval_batch_size conf) w = (inr [], w0) →
  compute_metric'' conf model tokenizer tokenized_test w =
  match open_error w0 (path_join (checkpoint conf) "results.json") with
  | Some e => (raise e, w0)
  | None =>
      (inr (results_document [] []),
       write_file (path_join (checkpoint conf) "results.json")
         (json_file (results_document [] [])) w0)
  end.
Proof.
  intros Hload. unfold compute_metric.
  rewrite (io_bind_run _ _ _ _ _ Hload).
  cbn [for_each]. unfold mbind at 1, io_bind at 1. cbn [mret io_ret].
  unfold mbind at 1, io_bind at 1. unfold json_dump.
  destruct (open_error w0 (path_join (checkpoint conf) "results.json"));
    reflexivity.
Qed.

Lemma path_join_plain (a b : string) :
  a ≠ "" → ends_with_slash a = false → starts_with_slash b = false →
  path_join a b = a +:+ "/" +:+ b.
Proof.
  intros Ha Hend Hb. unfold path_join. rewrite Hb, Hend.
  by rewrite bool_decide_eq_false_2.
Qed.

(** X10: what [main] would read back. For a checkpoint directory that is
    not the empty string and has no final slash, after [compute_metric]
    has returned, loading [f'{conf.checkpoint}/results.json'] gives the
    dictionary that was returned, and its entries ['predictions'] and
    ['references'] are the lists of strings that were collected. *)
Theorem results_read_back conf model tokenizer tokenized_test w outputs w' :
  checkpoint conf ≠ "" →
  ends_with_slash (checkpoint conf) = false →
  compute_metric'' conf model tokenizer tokenized_test w = (inr outputs, w') →
  ∃ predictions references,
    outputs = results_document predictions references
    ∧ json_load (checkpoint conf +:+ "/results.json") "utf-8" w' =
      (inr outputs, w')
    ∧ subscript outputs (KStr "predictions") ≫= as_strings = mret predictions
    ∧ subscript outputs (KStr "references") ≫= as_strings = mret references.
Proof.
  intros Hne Hslash Hrun.
  apply compute_metric_inv in Hrun
    as (dataloader & w0 & predictions & references & w1 & _ & _ & -> & _
        & ->).
  exists predictions, references. split; [reflexivity|]. split.
  - unfold json_load. cbn [files write_file].
    rewrite (path_join_plain _ "results.json" Hne Hslash eq_refl).
    change ("/" +:+ "results.json") with "/results.json".
    by rewrite lookup_insert_eq.
  - split; cbn [subscript results_document assoc];
      rewrite ?decide_True by done; rewrite ?decide_False by done;
      rewrite ?decide_True by done;
      change (mret ?v ≫= as_strings) with (as_strings v);
      apply as_strings_strings_value.
Qed.

(** X11: a dataset without one of the splits ['train'], ['validation'],
    ['test']. [prepare_data] raises [KeyError] in the world that
    [load_dataset] left: no split is formatted. *)
Theorem prepare_data_missing_split conf w data w1 :
  load_dataset ("shnl/" +:+ dataset_name conf) w = (inr data, w1) →
  data !! "train" = None ∨ data !! "validation" = None
  ∨ data !! "test" = None →
  prepare_data'' conf w = (raise KeyError, w1).
Proof.
  intros Hload Hmissing. unfold prepare_data.
  rewrite (io_bind_run _ _ _ _ _ Hload). unfold lift, getitem.
  destruct (data !! "train") as [train|]; [|reflexivity].
  destruct (data !! "validation") as [dev|]; [|reflexivity].
  destruct (data !! "test") as [test|]; [|reflexivity].
  destruct Hmissing as [?|[?|?]]; discriminate.
Qed.


End PipelineFurther.

#[local] Abbreviation toy_compute_metric :=
  (compute_metric Toy.Dataset unit unit Toy.Dataset string Toy.DataLoader
     Toy.model_generate Toy.tokenizer_decode Toy.batch_labels).

Lemma toy_compute_metric_formatted :
  toy_compute_metric (Config_new "vit5") () () Toy.formatted Toy.world =
  (inr Toy.outputs,
   write_file "/kaggle/working/cp/results.json" (json_file Toy.outputs)
     Toy.world).
Proof. reflexivity. Qed.

Lemma toy_generates_per_label batch w1 outs w2 :
  batch ∈ [Toy.formatted] →
  Toy.model_generate () batch (tgt_len (Config_new "vit5")) w1 =
    (inr outs, w2) →
  length outs = length (Toy.batch_labels () batch).
Proof.
  intros Hbatch%list_elem_of_singleton Hgen. subst batch.
  injection Hgen as <- _. reflexivity.
Qed.

(** X8, on the stand-in. *)
Lemma compute_metric_equal_lengths_witness :
  Toy.DataLoader () () Toy.formatted
    (per_device_eval_batch_size (Config_new "vit5")) Toy.world =
    (inr [Toy.formatted], Toy.world)
  ∧ (∀ batch w1 outs w2, batch ∈ [Toy.formatted] →
       Toy.model_generate () batch (tgt_len (Config_new "vit5")) w1 =
         (inr outs, w2) →
       length outs = length (Toy.batch_labels () batch))
  ∧ ∃ predictions references,
      Toy.outputs = results_document predictions references
      ∧ length predictions = length references.
Proof.
  split; [reflexivity|]. split; [exact toy_generates_per_label|].
  exact (compute_metric_equal_lengths Toy.Dataset unit unit Toy.Dataset
           string Toy.DataLoader Toy.model_generate Toy.tokenizer_decode
           Toy.batch_labels (Config_new "vit5") () () Toy.formatted
           Toy.world [Toy.formatted] Toy.world Toy.outputs _
           eq_refl toy_generates_per_label toy_compute_metric_formatted).
Defined.

(** X9, with a loader that yields no batch, in a file system where the
    results file can be written and in one where the directory is
    missing. *)
Lemma compute_metric_no_batch_witness :
  compute_metric Toy.Dataset unit unit Toy.Dataset string
    (λ _ _ _ _, mret []) Toy.model_generate Toy.tokenizer_decode
    Toy.batch_labels (Config_new "vit5") () () [] Toy.world =
  (inr (results_document [] []),
   write_file "/kaggle/working/cp/results.json"
     (json_file (results_document [] [])) Toy.world)
  ∧ compute_metric Toy.Dataset unit unit Toy.Dataset string
      (λ _ _ _ _, mret []) Toy.model_generate Toy.tokenizer_decode
      Toy.batch_labels (Config_new "vit5") () () []
      {| files := ∅; stdout := [];
         open_error := λ _, Some FileNotFoundError |} =
    (raise FileNotFoundError,
     {| files := ∅; stdout := [];
        open_error := λ _, Some FileNotFoundError |}).
Proof.
  split.
  - exact (compute_metric_no_batch Toy.Dataset unit unit Toy.Dataset string
             (λ _ _ _ _, mret []) Toy.model_generate Toy.tokenizer_decode
             Toy.batch_labels (Config_new "vit5") () () [] Toy.world
             Toy.world eq_refl).
  - exact (compute_metric_no_batch Toy.Dataset unit unit Toy.Dataset string
             (λ _ _ _ _, mret []) Toy.model_generate Toy.tokenizer_decode
             Toy.batch_labels (Config_new "vit5") () () []
             {| files := ∅; stdout := [];
                open_error := λ _, Some FileNotFoundError |}
             {| files := ∅; stdout := [];
                open_error := λ _, Some FileNotFoundError |} eq_refl).
Defined.

(** X10, on the stand-in. *)
Lemma results_read_back_witness :
  checkpoint (Config_new "vit5") ≠ ""
  ∧ ends_with_slash (checkpoint (Config_new "vit5")) = false
  ∧ ∃ predictions references,
      Toy.outputs = results_document predictions references
      ∧ json_load (checkpoint (Config_new "vit5") +:+ "/results.json")
          "utf-8"
          (write_file "/kaggle/working/cp/results.json"
             (json_file Toy.outputs) Toy.world) =
        (inr Toy.outputs,
         write_file "/kaggle/working/cp/results.json"
           (json_file Toy.outputs) Toy.world)
      ∧ subscript Toy.outputs (KStr "predictions") ≫= as_strings =
        mret predictions
      ∧ subscript Toy.outputs (KStr "references") ≫= as_strings =
        mret references.
Proof.
  assert (checkpoint (Config_new "vit5") ≠ "") as Hne by discriminate.
  split; [exact Hne|]. split; [reflexivity|].
  exact (results_read_back Toy.Dataset unit unit Toy.Dataset string
           Toy.DataLoader Toy.model_generate Toy.tokenizer_decode
           Toy.batch_labels (Config_new "vit5") () () Toy.formatted
           Toy.world _ _ Hne eq_refl toy_compute_metric_formatted).
Defined.

(** X11, with a hub dataset that has only the split ['train']. *)
Lemma prepare_data_missing_split_witness :
  (<["train" := Toy.split]> ∅ : gmap string Toy.Dataset) !! "validation"
  = None
  ∧ prepare_data Toy.Dataset (λ s, s)
      (λ _, mret (<["train" := Toy.split]> ∅)) Toy.Dataset_map
      Toy.Dataset_remove_columns (Config_new "vit5") Toy.world =
    (raise KeyError, Toy.world).
Proof.
  split; [reflexivity|].
  apply (prepare_data_missing_split Toy.Dataset (λ s, s)
           (λ _, mret (<["train" := Toy.split]> ∅)) Toy.Dataset_map
           Toy.Dataset_remove_columns (Config_new "vit5") Toy.world
           (<["train" := Toy.split]> ∅) Toy.world eq_refl).
  right. left. reflexivity.
Defined.


Section PrepareQuestionGeneration.

Variable Dataset : Type.
Variable ViTokenizer_tokenize : string → string.
Variable load_dataset : string → io (gmap string Dataset).
Variable Dataset_map :
  (gmap string string → py (gmap string string)) → nat → Dataset → io Dataset.
Variable Dataset_remove_columns : list string → Dataset → io Dataset.

(** X14: with the task ['qg'], [prepare_data] formats the three splits
    with [formatting_func_qg]. *)
Theorem prepare_data_question_generation conf w :
  task conf = "qg" →
  prepare_data Dataset ViTokenizer_tokenize load_dataset Dataset_map
    Dataset_remove_columns conf w =
  prepare_data_with Dataset load_dataset Dataset_map Dataset_remove_columns
    (formatting_func_qg ViTokenizer_tokenize) conf w.
Proof.
  intros Htask. unfold prepare_data, prepare_data_with.
  destruct (decide (task conf = "qg")) as [_|Hne]; [reflexivity|done].
Qed.

End PrepareQuestionGeneration.

(** X14, on the stand-in: the rows are formatted for question generation. *)
Lemma prepare_data_question_generation_witness :
  task (Config_new_task "vit5" "qg") = "qg"
  ∧ prepare_data Toy.Dataset (λ s, s) Toy.load_dataset Toy.Dataset_map
      Toy.Dataset_remove_columns (Config_new_task "vit5" "qg") Toy.world =
    prepare_data_with Toy.Dataset Toy.load_dataset Toy.Dataset_map
      Toy.Dataset_remove_columns (formatting_func_qg (λ s, s))
      (Config_new_task "vit5" "qg") Toy.world
  ∧ prepare_data_with Toy.Dataset Toy.load_dataset Toy.Dataset_map
      Toy.Dataset_remove_columns (formatting_func_qg (λ s, s))
      (Config_new_task "vit5" "qg") Toy.world =
    (inr ([ {[ "input_seq" :=
                 prompt "Hoi" "Ha Noi la thu do" "Answer" "Ha Noi";
               "output_seq" := "Thu do la gi" ]} ],
          [ {[ "input_seq" :=
                 prompt "Hoi" "Ha Noi la thu do" "Answer" "Ha Noi";
               "output_seq" := "Thu do la gi" ]} ],
          [ {[ "input_seq" :=
                 prompt "Hoi" "Ha Noi la thu do" "Answer" "Ha Noi";
               "output_seq" := "Thu do la gi" ]} ]),
     Toy.world).
Proof.
  split; [reflexivity|]. split; [|reflexivity].
  exact (prepare_data_question_generation Toy.Dataset (λ s, s)
           Toy.load_dataset Toy.Dataset_map Toy.Dataset_remove_columns
           (Config_new_task "vit5" "qg") Toy.world eq_refl).
Defined.

Section MainFailures.

Variables Dataset Tokenizer Model Batch Ids : Type.
Variable ViTokenizer_tokenize : string → string.
Variable nlp : string → list Token.
Variable sentence_bleu : list (list string) → list string → weights → R.
Variable os_makedirs : string → io unit.
Variable AutoTokenizer_from_pretrained : string → io Tokenizer.
Variable AutoModelForSeq2SeqLM_from_pretrained : string → io Model.
Variable load_dataset : string → io (gmap string Dataset).
Variable Dataset_map :
  (gmap string string → py (gmap string string)) → nat → Dataset → io Dataset.
Variable Dataset_remove_columns : list string → Dataset → io Dataset.
Variable Dataset_column : Dataset → string → io value.
Variable Dataset_tokenize : Tokenizer → nat → nat → nat → Dataset → io Dataset.
Variable trainer_train :
  Config → Model → Tokenizer → Dataset → Dataset → io unit.
Variable DataLoader : Tokenizer → Model → Dataset → nat → io (list Batch).
Variable model_generate : Model → Batch → nat → io (list Ids).
Variable tokenizer_decode : Tokenizer → Ids → string.
Variable batch_labels : Tokenizer → Batch → list Ids.
Variable rouge_compute : value → value → io (list (string * R)).
Variable meteor_compute : value → value → io value.
Variable bertscore_compute : value → value → string → io value.
Variable np_array_mean : value → io R.

(** X15: [main] catches nothing. When the directory, the tokenizer and the
    model are there and [prepare_data] raises, [main] ends with that
    exception in the world [prepare_data] left: nothing is trained. *)
Theorem main_prepare_data_fails name w0 w1 w2 w3 w4 tokenizer model e :
  os_makedirs (checkpoint (Config_new name)) w0 = (inr (), w1) →
  AutoTokenizer_from_pretrained
    (pretrained_model_name_or_path (Config_new name)) w1 =
    (inr tokenizer, w2) →
  AutoModelForSeq2SeqLM_from_pretrained
    (pretrained_model_name_or_path (Config_new name)) w2 = (inr model, w3) →
  prepare_data Dataset ViTokenizer_tokenize load_dataset Dataset_map
    Dataset_remove_columns (Config_new name) w3 = (raise e, w4) →
  main Dataset Tokenizer Model Batch Ids ViTokenizer_tokenize nlp
    sentence_bleu os_makedirs AutoTokenizer_from_pretrained
    AutoModelForSeq2SeqLM_from_pretrained load_dataset Dataset_map
    Dataset_remove_columns Dataset_column Dataset_tokenize trainer_train
    DataLoader model_generate tokenizer_decode batch_labels rouge_compute
    meteor_compute bertscore_compute np_array_mean name w0 =
  (raise e, w4).
Proof.
  intros Hdirs Htok Hmodel Hdata. unfold main.
  rewrite (io_bind_run _ _ _ _ _ Hdirs).
  rewrite (io_bind_run _ _ _ _ _ Htok).
  rewrite (io_bind_run _ _ _ _ _ Hmodel).
  unfold mbind at 1, io_bind at 1. by rewrite Hdata.
Qed.

(** X13: whatever the libraries do, [main] never returns: every run ends
    with an exception, that of a library call or the [KeyError] of
    [outputs[0]]. *)
Theorem main_never_returns name w :
  ∃ e w',
    main Dataset Tokenizer Model Batch Ids ViTokenizer_tokenize nlp
      sentence_bleu os_makedirs AutoTokenizer_from_pretrained
      AutoModelForSeq2SeqLM_from_pretrained load_dataset Dataset_map
      Dataset_remove_columns Dataset_column Dataset_tokenize trainer_train
      DataLoader model_generate tokenizer_decode batch_labels rouge_compute
      meteor_compute bertscore_compute np_array_mean name w =
    (raise e, w').
Proof.
  match goal with |- ∃ e w', ?run = _ =>
    destruct run as [[e|u] w'] eqn:Hrun
  end.
  - by exists e, w'.
  - unfold main in Hrun.
    apply io_bind_inr in Hrun as ([] & w1 & _ & Hrun).
    apply io_bind_inr in Hrun as (tokenizer & w2 & _ & Hrun).
    apply io_bind_inr in Hrun as (model & w3 & _ & Hrun).
    apply io_bind_inr in Hrun as ([[train dev] test] & w4 & _ & Hrun).
    apply io_bind_inr in Hrun as (outputs & w5 & Htrain & Hrun).
    apply io_bind_inr in Hrun as (first & w6 & Hfirst & _).
    apply preprocess_and_train_returns in Htrain
      as (predictions & references & -> & _).
    discriminate Hfirst.
Qed.

End MainFailures.

(** X15, with a hub dataset that has only the split ['train']. *)
Lemma main_prepare_data_fails_witness :
  main Toy.Dataset unit unit Toy.Dataset string (λ s, s) words_nlp
    Nltk.sentence_bleu Toy.os_makedirs Toy.from_pretrained
    Toy.from_pretrained (λ _, mret (<["train" := Toy.split]> ∅))
    Toy.Dataset_map Toy.Dataset_remove_columns Toy.Dataset_column
    Toy.Dataset_tokenize Toy.trainer_train Toy.DataLoader Toy.model_generate
    Toy.tokenizer_decode Toy.batch_labels Toy.rouge_compute
    Toy.meteor_compute Toy.bertscore_compute Toy.np_array_mean "bartpho"
    Toy.world =
  (raise KeyError, Toy.world).
Proof.
  exact (main_prepare_data_fails Toy.Dataset unit unit Toy.Dataset string
           (λ s, s) words_nlp Nltk.sentence_bleu Toy.os_makedirs
           Toy.from_pretrained Toy.from_pretrained
           (λ _, mret (<["train" := Toy.split]> ∅))
           Toy.Dataset_map Toy.Dataset_remove_columns Toy.Dataset_column
           Toy.Dataset_tokenize Toy.trainer_train Toy.DataLoader
           Toy.model_generate Toy.tokenizer_decode Toy.batch_labels
           Toy.rouge_compute Toy.meteor_compute Toy.bertscore_compute
           Toy.np_array_mean "bartpho" Toy.world Toy.world Toy.world
           Toy.world Toy.world () () KeyError
           eq_refl eq_refl eq_refl eq_refl).
Defined.
